(** * rest_framework_mongoengine.utils: model introspection helpers

    A shallow embedding of [rest_framework_mongoengine/utils.py]
    ([_resolve_model], [get_field_info], [is_abstract_model],
    [get_field_kwargs]) together with the properties of these functions
    that the design document states.

    Python dictionaries whose order is irrelevant ([kwargs]) are finite
    maps; [OrderedDict]s are association lists with the insertion
    discipline of [OrderedDict.__setitem__]; exceptions are the left
    summand of a sum type. *)

From Stdlib Require Import ZArith NArith Ascii String List Lia.
From stdpp Require Import base option list gmap strings.

#[local] Set Warnings "-clear-no-such-hyp".

Local Open Scope string_scope.
Local Open Scope Z_scope.

(** ** Python values *)

Module Py.

#[local] Set Warnings "-register-all".

(** The values that field attributes hold in this module: [None],
    booleans, integers, text, lists and callables (named). *)
Inductive value : Type :=
| PyNone
| PyBool (b : bool)
| PyInt (z : Z)
| PyStr (s : string)
| PyList (l : list value)
| PyCallable (qualname : string).

(** Truth-value testing, as performed by [if x:] and [x and y]. *)
Definition truthy (v : value) : bool :=
  match v with
  | PyNone => false
  | PyBool b => b
  | PyInt z => negb (z =? 0)
  | PyStr s => negb (String.eqb s "")
  | PyList l => match l with [] => false | _ :: _ => true end
  | PyCallable _ => true
  end.

(** [getattr(obj, name, default)]: a missing attribute and an attribute
    holding the default are indistinguishable to the caller. *)
Definition getattr {A} (attr : option A) (default : A) : A :=
  match attr with Some a => a | None => default end.

(** *** [str] on integers *)

Definition digit_char (d : N) : ascii :=
  ascii_of_N (48 + d).

(** Most significant digit first; [fuel] bounds the number of digits. *)
Fixpoint digits_of (fuel : nat) (n : N) (acc : string) : string :=
  let acc' := String (digit_char (n mod 10)) acc in
  match fuel with
  | O => acc'
  | S fuel' => if (n <? 10)%N then acc' else digits_of fuel' (n / 10) acc'
  end.

Definition str_N (n : N) : string :=
  digits_of (N.size_nat n) n "".

Definition str_int (z : Z) : string :=
  match z with
  | Z0 => "0"
  | Zpos p => str_N (Npos p)
  | Zneg p => String "-" (str_N (Npos p))
  end.


(** *** Numbers given as bounds *)

(** A bound is an integer, a float or a [Decimal]; a float or [Decimal] is
    given by the text that [str] yields for it. *)
Inductive number : Type :=
| NInt (z : Z)
| NFloat (text : string)
| NDecimal (text : string).

Definition str_number (n : number) : string :=
  match n with
  | NInt z => str_int z
  | NFloat text => text
  | NDecimal text => text
  end.

(** [len(str(n))] *)
Definition len_str_number (n : number) : Z :=
  Z.of_nat (String.length (str_number n)).

(** *** [str.split(sep)] for a one-character separator *)

Fixpoint split_go (sep : ascii) (s : string) (cur : string) : list string :=
  match s with
  | EmptyString => [cur]
  | String c s' =>
      if Ascii.eqb c sep then cur :: split_go sep s' ""
      else split_go sep s' (cur ++ String c "")
  end.

Definition split (sep : ascii) (s : string) : list string :=
  split_go sep s "".

(** [c in s] for a character [c] *)
Fixpoint contains (c : ascii) (s : string) : bool :=
  match s with
  | EmptyString => false
  | String c' s' => Ascii.eqb c' c || contains c s'
  end.

End Py.

Import Py.

(** ** The mongoengine object model, as far as this module looks at it *)

Module me_fields.

(** The field classes of [mongoengine.fields] (and [mongoengine.base]). *)
Inductive field_class : Type :=
| BaseField
| ObjectIdField
| StringField
| URLField
| EmailField
| IntField
| LongField
| FloatField
| DecimalField
| BooleanField
| DateTimeField
| SequenceField
| ComplexBaseField
| ListField
| SortedListField
| DictField
| MapField
| ReferenceField
| EmbeddedDocumentField.

#[global] Instance field_class_eq_dec : EqDecision field_class.
Proof. solve_decision. Defined.

(** The proper base classes of each field class. *)
Definition bases (c : field_class) : list field_class :=
  match c with
  | BaseField => []
  | URLField | EmailField => [StringField; BaseField]
  | ListField | DictField => [ComplexBaseField; BaseField]
  | SortedListField => [ListField; ComplexBaseField; BaseField]
  | MapField => [DictField; ComplexBaseField; BaseField]
  | _ => [BaseField]
  end.

Definition issubclass (c d : field_class) : bool :=
  bool_decide (d ∈ c :: bases c).

End me_fields.

Import me_fields.

(** A queryset is identified by the collection it ranges over. *)
Definition queryset : Type := string.

(** The document class that owns a field ([model_field.model]). *)
Record owner : Type := {
  owner_name : string;
  _default_manager : queryset
}.

(** A field definition: its class and the attributes read by this module.
    Attributes fetched with a three-argument [getattr] are options, where
    [None] stands for an attribute that is missing or holds [None].
    [model] is read with a plain attribute access: [None] stands for a
    field object without that attribute, as mongoengine builds them (its
    fields carry [owner_document]). *)
Record field : Type := {
  field_type : field_class;
  name : string;
  db_field : Py.value;
  required : Py.value;
  default : Py.value;
  null : Py.value;
  choices : Py.value;
  unique : option Py.value;
  primary_key : Py.value;
  verbose_name : Py.value;
  help_text : Py.value;
  validation : option string;
  precision : Z;
  max_length : option Z;
  min_length : option Z;
  max_value : option number;
  min_value : option number;
  model : option owner
}.

Definition isinstance (f : field) (c : field_class) : bool :=
  issubclass (field_type f) c.

(** [isinstance(f, (c1, ..., cn))] *)
Definition isinstance_any (f : field) (cs : list field_class) : bool :=
  existsb (isinstance f) cs.

(** [x == '_id'] *)
Definition eq_str (v : Py.value) (s : string) : bool :=
  match v with
  | PyStr t => String.eqb t s
  | _ => false
  end.

(** ** Exceptions *)

Inductive exn : Type :=
| ImproperlyConfigured (msg : string)
| ValueError (msg : string)
| KeyError (key : Py.value)
| AttributeError (attribute : string)
| NotRegistered (document : string).

(** ** Serializer-field keyword arguments *)

Inductive validator : Type :=
| FieldValidation (callable : string)
| UniqueValidator (qs : queryset) (message : Py.value).

Inductive kwvalue : Type :=
| KField (f : field)
| KVal (v : Py.value)
| KNumber (n : number)
| KValidators (vs : list validator).

Definition NUMERIC_FIELD_TYPES : list field_class :=
  [IntField; LongField; FloatField; DecimalField].

Section FieldKwargs.

(** [rest_framework.utils.field_mapping.needs_label] and
    [django.utils.text.capfirst] are collaborators of the serializer
    framework. *)
Variable needs_label : field -> string -> bool.
Variable capfirst : Py.value -> Py.value.

(** [get_field_kwargs], lines 107-130: the keyword arguments set before
    the read-only test. *)
Definition common_kwargs (field_name : string) (model_field : field)
    : gmap string kwvalue :=
  let kwargs : gmap string kwvalue := ∅ in
  let kwargs := <["model_field" := KField model_field]> kwargs in
  let kwargs :=
    if truthy (verbose_name model_field)
       && needs_label model_field field_name
    then <["label" := KVal (capfirst (verbose_name model_field))]> kwargs
    else kwargs in
  let kwargs :=
    if truthy (help_text model_field)
    then <["help_text" := KVal (help_text model_field)]> kwargs
    else kwargs in
  if isinstance model_field DecimalField then
    let precision := precision model_field in
    let max_length :=
      match max_value model_field with
      | Some max_value => len_str_number max_value + precision
      | None => 65536
      end in
    let kwargs := <["decimal_places" := KVal (PyInt precision)]> kwargs in
    <["max_digits" := KVal (PyInt max_length)]> kwargs
  else kwargs.

(** [get_field_kwargs], line 132: the read-only test. *)
Definition is_read_only (model_field : field) : bool :=
  isinstance model_field SequenceField
  || truthy (primary_key model_field)
  || eq_str (db_field model_field) "_id".

(** [get_field_kwargs], lines 138-147: [required], [default] and
    [allow_null]. *)
Definition required_kwargs (model_field : field)
    (kwargs : gmap string kwvalue) : gmap string kwvalue :=
  let kwargs := <["required" := KVal (required model_field)]> kwargs in
  let kwargs :=
    if truthy (default model_field)
    then <["required" := KVal (PyBool false)]> kwargs else kwargs in
  let kwargs :=
    if truthy (default model_field)
       && negb (isinstance model_field ComplexBaseField)
    then <["default" := KVal (default model_field)]> kwargs else kwargs in
  if truthy (null model_field)
  then <["allow_null" := KVal (PyBool true)]> kwargs else kwargs.

(** [get_field_kwargs], lines 155-169: the length and value bounds. *)
Definition bound_kwargs (model_field : field)
    (kwargs : gmap string kwvalue) : gmap string kwvalue :=
  let kwargs :=
    match max_length model_field with
    | Some max_length =>
        if isinstance model_field StringField
        then <["max_length" := KVal (PyInt max_length)]> kwargs else kwargs
    | None => kwargs
    end in
  let kwargs :=
    match min_length model_field with
    | Some min_length =>
        if isinstance model_field StringField
        then <["min_length" := KVal (PyInt min_length)]> kwargs else kwargs
    | None => kwargs
    end in
  let kwargs :=
    match max_value model_field with
    | Some max_value =>
        if isinstance_any model_field NUMERIC_FIELD_TYPES
        then <["max_value" := KNumber max_value]> kwargs else kwargs
    | None => kwargs
    end in
  match min_value model_field with
  | Some min_value =>
      if isinstance_any model_field NUMERIC_FIELD_TYPES
      then <["min_value" := KNumber min_value]> kwargs else kwargs
  | None => kwargs
  end.

(** [get_field_kwargs], lines 171-175: the uniqueness validator is
    appended for a unique field; [model_field.model] raises when the
    field has no such attribute. *)
Definition unique_validator_kwarg (model_field : field)
    (validator_kwarg : list validator) : exn + list validator :=
  if truthy (getattr (unique model_field) (PyBool false))
  then match model model_field with
       | Some model =>
           inr (validator_kwarg ++
                [UniqueValidator (_default_manager model) PyNone])%list
       | None => inl (AttributeError "model")
       end
  else inr validator_kwarg.

(** [get_field_kwargs], lines 177-178. *)
Definition validators_kwargs (validator_kwarg : list validator)
    (kwargs : gmap string kwvalue) : gmap string kwvalue :=
  match validator_kwarg with
  | [] => kwargs
  | _ :: _ => <["validators" := KValidators validator_kwarg]> kwargs
  end.

(** [get_field_kwargs]: a read-only field returns at line 136, a field
    with choices at line 153. *)
Definition get_field_kwargs (field_name : string) (model_field : field)
    : exn + gmap string kwvalue :=
  let validator_kwarg :=
    match validation model_field with
    | Some v => [FieldValidation v]
    | None => []
    end in
  let kwargs := common_kwargs field_name model_field in
  if is_read_only model_field
  then inr (<["read_only" := KVal (PyBool true)]> kwargs)
  else
    let kwargs := required_kwargs model_field kwargs in
    if truthy (choices model_field)
    then inr (<["choices" := KVal (choices model_field)]> kwargs)
    else
      let kwargs := bound_kwargs model_field kwargs in
      match unique_validator_kwarg model_field validator_kwarg with
      | inl e => inl e
      | inr validator_kwarg => inr (validators_kwargs validator_kwarg kwargs)
      end.

End FieldKwargs.

(** ** Ordered dictionaries *)

Module OrderedDict.

Definition t (V : Type) : Type := list (string * V).

Definition empty {V} : t V := [].

(** [d[k] = v]: an existing key keeps its position, a new key goes to
    the end. *)
Fixpoint set {V} (k : string) (v : V) (d : t V) : t V :=
  match d with
  | [] => [(k, v)]
  | (k', v') :: d' =>
      if String.eqb k' k then (k', v) :: d' else (k', v') :: set k v d'
  end.

Fixpoint get {V} (k : string) (d : t V) : option V :=
  match d with
  | [] => None
  | (k', v') :: d' => if String.eqb k' k then Some v' else get k d'
  end.

Definition keys {V} (d : t V) : list string := map fst d.

Definition items {V} (d : t V) : list (string * V) := d.

(** [d.update(other)] *)
Definition update {V} (d other : t V) : t V :=
  fold_left (fun acc kv => set (fst kv) (snd kv) acc) (items other) d.

(** [OrderedDict(pairs)] *)
Definition of_items {V} (pairs : list (string * V)) : t V :=
  update empty pairs.

End OrderedDict.

(** ** Classes *)

(** A class object, with what this module asks of it: whether it derives
    from mongoengine's base document class, the test
    [issubclass(c, mongoengine.EmbeddedDocument)], and the attributes
    [_fields], [_fields_ordered], [_meta] and (if present) [meta]. *)
Record pyclass : Type := {
  cls_name : string;
  is_BaseDocument : bool;
  is_EmbeddedDocument : bool;
  _fields : gmap string field;
  _fields_ordered : list string;
  _meta : gmap string Py.value;
  meta : option (gmap string Py.value)
}.

(** An argument of [_resolve_model]: text, a class, or any other object
    (given by its [str]). *)
Inductive pyobj : Type :=
| ObjStr (s : string)
| ObjClass (c : pyclass)
| ObjOther (text : string).

(** [str(obj)], as substituted by [format]. *)
Definition str_obj (obj : pyobj) : string :=
  match obj with
  | ObjStr s => s
  | ObjClass c => "<class '" ++ cls_name c ++ "'>"
  | ObjOther text => text
  end.

Section ResolveModel.

(** [mongoengine.base.common.get_document]: the call raises, or returns
    [None], or returns a class. *)
Variable get_document : string -> exn + option pyclass.

(** [mongoengine.BaseDocument]: the attribute lookup raises, or gives a
    class, which is represented by the test [issubclass(_, it)]. *)
Variable BaseDocument : exn + (pyclass -> bool).

Definition not_a_document (obj : pyobj) : exn :=
  ValueError (str_obj obj ++ " is not a MongoDB Document").

Definition _resolve_model (obj : pyobj) : exn + pyclass :=
  match obj with
  | ObjStr s =>
      match split "." s with
      | [app_name; model_name] =>
          match get_document model_name with
          | inl e => inl e
          | inr None =>
              inl (ImproperlyConfigured
                     ("Mongoengine did not return a model for "
                      ++ app_name ++ "." ++ model_name))
          | inr (Some resolved_model) => inr resolved_model
          end
      | _ => inl (not_a_document obj)
      end
  | ObjClass c =>
      match BaseDocument with
      | inl e => inl e
      | inr issubclass_of_it =>
          if issubclass_of_it c then inr c else inl (not_a_document obj)
      end
  | ObjOther _ => inl (not_a_document obj)
  end.

End ResolveModel.

(** ** Field information *)

Record RelationInfo : Type := {
  model_field : field;
  related : string;
  to_many : bool;
  has_through_model : bool
}.

Record FieldInfo : Type := {
  pk : option field;
  fields : OrderedDict.t field;
  forward_relations : OrderedDict.t RelationInfo;
  reverse_relations : OrderedDict.t RelationInfo;
  fields_and_pk : OrderedDict.t (option field);
  relations : OrderedDict.t RelationInfo
}.

(** [d[key]] on a plain dictionary with text keys. *)
Definition getitem {V} (d : gmap string V) (key : Py.value) : exn + V :=
  match key with
  | PyStr k =>
      match d !! k with
      | Some v => inr v
      | None => inl (KeyError key)
      end
  | _ => inl (KeyError key)
  end.

(** The loop [for field_name in model._fields_ordered:
    fields[field_name] = model._fields[field_name]]. *)
Fixpoint collect_fields (model : pyclass) (names : list string)
    (fields : OrderedDict.t field) : exn + OrderedDict.t field :=
  match names with
  | [] => inr fields
  | field_name :: names' =>
      match getitem (_fields model) (PyStr field_name) with
      | inl e => inl e
      | inr f => collect_fields model names' (OrderedDict.set field_name f fields)
      end
  end.

(** [getattr(pk, 'name', 'pk')]: [None] has no attribute [name]. *)
Definition pk_name (pk : option field) : string :=
  getattr (name <$> pk) "pk".

Definition get_field_info (model : pyclass) : exn + FieldInfo :=
  match
    (if is_EmbeddedDocument model then inr None
     else match getitem (_meta model) (PyStr "id_field") with
          | inl e => inl e
          | inr id_field =>
              match getitem (_fields model) id_field with
              | inl e => inl e
              | inr f => inr (Some f)
              end
          end)
  with
  | inl e => inl e
  | inr pk =>
      match collect_fields model (_fields_ordered model) OrderedDict.empty with
      | inl e => inl e
      | inr fields =>
          let forward_relations : OrderedDict.t RelationInfo :=
            OrderedDict.empty in
          let reverse_relations : OrderedDict.t RelationInfo :=
            OrderedDict.empty in
          let fields_and_pk : OrderedDict.t (option field) :=
            OrderedDict.empty in
          let fields_and_pk := OrderedDict.set "pk" pk fields_and_pk in
          let fields_and_pk := OrderedDict.set (pk_name pk) pk fields_and_pk in
          let fields_and_pk :=
            OrderedDict.update fields_and_pk
              (map (fun kv => (fst kv, Some (snd kv))) (OrderedDict.items fields)) in
          let relations :=
            OrderedDict.of_items
              (OrderedDict.items forward_relations
               ++ OrderedDict.items reverse_relations)%list in
          inr {| pk := pk;
                 fields := fields;
                 forward_relations := forward_relations;
                 reverse_relations := reverse_relations;
                 fields_and_pk := fields_and_pk;
                 relations := relations |}
      end
  end.

(** [hasattr(model, 'meta') and model.meta.get('abstract', False)] *)
Definition is_abstract_model (model : pyclass) : Py.value :=
  match meta model with
  | None => PyBool false
  | Some m => getattr (m !! "abstract") (PyBool false)
  end.


(** ** Vocabulary of the statements *)

(** [s] is [app_name.model_name], with no further dot. *)
Definition two_part_dotted (s app_name model_name : string) : Prop :=
  s = app_name ++ "." ++ model_name
  /\ contains "." app_name = false
  /\ contains "." model_name = false.

(** The inputs that [_resolve_model] refuses without looking anything up:
    text of another shape and objects that are not classes. *)
Definition not_a_reference (obj : pyobj) : Prop :=
  match obj with
  | ObjStr s => forall app_name model_name, ~ two_part_dotted s app_name model_name
  | ObjClass _ => False
  | ObjOther _ => True
  end.

(** Every declared name has a definition in [_fields]. *)
Definition declared_fields_exist (model : pyclass) : Prop :=
  Forall (fun n => is_Some (_fields model !! n)) (_fields_ordered model).

(** The field that the metadata designates as identity field. *)
Definition identity_field (model : pyclass) : option field :=
  match _meta model !! "id_field" with
  | Some (PyStr id_field) => _fields model !! id_field
  | _ => None
  end.

(** The models on which [get_field_info] raises no [KeyError]. *)
Definition well_formed (model : pyclass) : Prop :=
  declared_fields_exist model
  /\ (is_EmbeddedDocument model = false -> is_Some (identity_field model)).

(** The entries that the declared fields contribute, in declared order. *)
Definition declared_items (model : pyclass) : list (string * field) :=
  omap (fun n => pair n <$> _fields model !! n) (_fields_ordered model).

(** The keys written by lines 155-178, and by lines 138-153. *)
Definition constraint_keys : list string :=
  ["max_length"; "min_length"; "max_value"; "min_value"; "validators"].

Definition writable_keys : list string :=
  ["required"; "default"; "allow_null"; "choices"].

(** Every key that [get_field_kwargs] can write. *)
Definition known_keys : list string :=
  ["model_field"; "label"; "help_text"; "decimal_places"; "max_digits";
   "read_only"; "required"; "default"; "allow_null"; "choices";
   "max_length"; "min_length"; "max_value"; "min_value"; "validators"].

(** The test that guards [kwargs['label']]. *)
Definition label_wanted (needs_label : field -> string -> bool)
    (field_name : string) (f : field) : bool :=
  truthy (verbose_name f) && needs_label f field_name.

(** The keys of the keyword arguments of a read-only field. *)
Definition read_only_key_set (needs_label : field -> string -> bool)
    (field_name : string) (f : field) : gset string :=
  {["model_field"; "read_only"]}
  ∪ (if label_wanted needs_label field_name f then {["label"]} else ∅)
  ∪ (if truthy (help_text f) then {["help_text"]} else ∅)
  ∪ (if isinstance f DecimalField
     then {["decimal_places"; "max_digits"]} else ∅).

(** [validator_kwarg] as it stands after the first test of
    [get_field_kwargs]. *)
Definition pending_validators (f : field) : list validator :=
  match validation f with
  | Some v => [FieldValidation v]
  | None => []
  end.

(** The uniqueness validator of a field, in a list, when the field is
    unique and has a [model]. *)
Definition unique_validators (f : field) : list validator :=
  if truthy (getattr (unique f) (PyBool false))
  then match model f with
       | Some model => [UniqueValidator (_default_manager model) PyNone]
       | None => []
       end
  else [].

(** The fields that reach line 173 without a [model] attribute: not
    read-only, without choices, unique. *)
Definition unique_without_model (f : field) : bool :=
  negb (is_read_only f) && negb (truthy (choices f))
  && truthy (getattr (unique f) (PyBool false))
  && match model f with None => true | Some _ => false end.



(** The declared entries as merged into [fields_and_pk]. *)
Definition as_entries (fs : OrderedDict.t field)
    : OrderedDict.t (option field) :=
  map (fun kv => (fst kv, Some (snd kv))) fs.

(** The keys that [get_field_info] writes to [fields_and_pk] before the
    declared fields are merged in. *)
Definition pk_keys (pk : option field) : list string :=
  if decide (pk_name pk = "pk") then ["pk"] else ["pk"; pk_name pk].

(** [s.count(c)] for a character [c] *)
Fixpoint count_char (c : ascii) (s : string) : nat :=
  match s with
  | EmptyString => O
  | String c' s' =>
      if Ascii.eqb c' c then S (count_char c s') else count_char c s'
  end.

(** ** Sample objects *)

Module Samples.

Definition person : owner :=
  {| owner_name := "Person"; _default_manager := "person" |}.

(** A field as a mongoengine field constructor builds it: the attributes
    that are not given take their defaults ([precision] is 2), and there
    is no attribute [model]. *)
Definition make_field (c : field_class) (nm : string)
    (db_field primary_key required default choices : Py.value)
    (unique : bool) (max_value : option number) : field :=
  {| field_type := c; name := nm; db_field := db_field;
     required := required; default := default; null := PyBool false;
     choices := choices; unique := Some (PyBool unique);
     primary_key := primary_key; verbose_name := PyNone;
     help_text := PyNone; validation := None; precision := 2;
     max_length := None; min_length := None;
     max_value := max_value; min_value := None; model := None |}.

(** [f.model = owner], set by hand. *)
Definition attach_model (o : owner) (f : field) : field :=
  {| field_type := field_type f; name := name f; db_field := db_field f;
     required := required f; default := default f; null := null f;
     choices := choices f; unique := unique f;
     primary_key := primary_key f; verbose_name := verbose_name f;
     help_text := help_text f; validation := validation f;
     precision := precision f; max_length := max_length f;
     min_length := min_length f; max_value := max_value f;
     min_value := min_value f; model := Some o |}.

(** [id = ObjectIdField(db_field='_id')], the automatic identity field *)
Definition auto_id : field :=
  make_field ObjectIdField "id" (PyStr "_id") (PyBool false)
    (PyBool false) PyNone PyNone false None.

(** [price = DecimalField(precision=2, max_value=999)] *)
Definition price : field :=
  make_field DecimalField "price" (PyStr "price") (PyBool false)
    (PyBool false) PyNone PyNone false (Some (NInt 999)).


(** [weight = DecimalField(precision=2, max_value=999.0)] *)
Definition weight : field :=
  make_field DecimalField "weight" (PyStr "weight") (PyBool false)
    (PyBool false) PyNone PyNone false (Some (NFloat "999.0")).

(** [amount = DecimalField(primary_key=True)] *)
Definition amount_pk : field :=
  make_field DecimalField "amount" (PyStr "amount") (PyBool true)
    (PyBool false) PyNone PyNone false None.

(** [age = IntField(required=True, default=0)] *)
Definition age_default_0 : field :=
  make_field IntField "age" (PyStr "age") (PyBool false)
    (PyBool true) (PyInt 0) PyNone false None.

(** [age = IntField(required=True, default=18)] *)
Definition age_default_18 : field :=
  make_field IntField "age" (PyStr "age") (PyBool false)
    (PyBool true) (PyInt 18) PyNone false None.

(** [number = IntField(primary_key=True, default=5)] *)
Definition number_pk_default : field :=
  make_field IntField "number" (PyStr "number") (PyBool true)
    (PyBool false) (PyInt 5) PyNone false None.

(** [colour = StringField(unique=True, choices=['red', 'green'])] *)
Definition colour : field :=
  make_field StringField "colour" (PyStr "colour") (PyBool false)
    (PyBool false) PyNone (PyList [PyStr "red"; PyStr "green"]) true None.

(** [email = StringField(unique=True)] *)
Definition email : field :=
  make_field StringField "email" (PyStr "email") (PyBool false)
    (PyBool false) PyNone PyNone true None.

(** [email], with [email.model] set by hand to the [Person] document. *)
Definition email_with_model : field := attach_model person email.

(** [pk = StringField()], a declared field that is called [pk] *)
Definition pk_text : field :=
  make_field StringField "pk" (PyStr "pk") (PyBool false)
    (PyBool false) PyNone PyNone false None.

(** [street = StringField()] *)
Definition street : field :=
  make_field StringField "street" (PyStr "street") (PyBool false)
    (PyBool false) PyNone PyNone false None.

Definition document (nm : string) (embedded : bool)
    (table : list (string * field)) (ordered : list string)
    (_meta : list (string * Py.value)) : pyclass :=
  {| cls_name := nm; is_BaseDocument := true;
     is_EmbeddedDocument := embedded;
     _fields := list_to_map table; _fields_ordered := ordered;
     _meta := list_to_map _meta; meta := None |}.

(** A document with the automatic [id], which mongoengine puts first
    among the declared names. *)
Definition customer : pyclass :=
  document "Customer" false
    [("id", auto_id); ("email", email); ("colour", colour)]
    ["id"; "email"; "colour"] [("id_field", PyStr "id")].

(** A smaller document of the same shape. *)
Definition member : pyclass :=
  document "Member" false [("id", auto_id); ("email", email)]
    ["id"; "email"] [("id_field", PyStr "id")].

(** An embedded document. *)
Definition address : pyclass :=
  document "Address" true [("street", street)] ["street"] [].

(** An embedded document that declares a field called [pk]. *)
Definition coupon : pyclass :=
  document "Coupon" true [("pk", pk_text); ("street", street)]
    ["pk"; "street"] [].

(** A class object whose metadata names no identity field. *)
Definition orphan : pyclass :=
  document "Orphan" false [("email", email)] ["email"] [].

(** A class object whose metadata names an identity field that does not
    exist. *)
Definition dangling : pyclass :=
  document "Dangling" false [("email", email)] ["email"]
    [("id_field", PyStr "id")].

(** An embedded class object that declares two names without
    definition. *)
Definition broken : pyclass :=
  document "Broken" true [("street", street)] ["street"; "city"; "zip"] [].

(** A class that is not a document. *)
Definition plain_class : pyclass :=
  {| cls_name := "Plain"; is_BaseDocument := false;
     is_EmbeddedDocument := false; _fields := ∅; _fields_ordered := [];
     _meta := ∅; meta := None |}.

(** A registry that knows [Customer] only and raises for any other name,
    as mongoengine's does. *)
Definition registry (model_name : string) : exn + option pyclass :=
  if String.eqb model_name "Customer" then inr (Some customer)
  else inl (NotRegistered model_name).

(** A registry that knows [Customer] only and answers [None] for any
    other name. *)
Definition quiet_registry (model_name : string) : exn + option pyclass :=
  if String.eqb model_name "Customer" then inr (Some customer)
  else inr None.

(** A [mongoengine] module without the attribute [BaseDocument], and one
    that has it. *)
Definition no_BaseDocument : exn + (pyclass -> bool) :=
  inl (AttributeError "BaseDocument").

Definition with_BaseDocument : exn + (pyclass -> bool) :=
  inr is_BaseDocument.

(** Stand-ins for the two collaborators of [get_field_kwargs]. *)
Definition always_label (_ : field) (_ : string) : bool := true.
Definition same_text (v : Py.value) : Py.value := v.

End Samples.

(** * Properties *)

(** ** [str] and [split] *)

Section StrInt.

Local Open Scope N_scope.






End StrInt.



Lemma append_nil_l s : "" ++ s = s.
Proof. reflexivity. Qed.

Lemma append_cons c s t : String c s ++ t = String c (s ++ t).
Proof. reflexivity. Qed.

Lemma append_nil_r s : s ++ "" = s.
Proof.
  induction s as [|c s IH]; [done|]. by rewrite append_cons, IH.
Qed.

Lemma append_char_l cur c s : (cur ++ String c "") ++ s = cur ++ String c s.
Proof.
  induction cur as [|c' cur IH]; [done|]. by rewrite !append_cons, IH.
Qed.

Section Split.

Variable sep : ascii.

Lemma split_go_head s : forall cur,
  exists a rest, split_go sep s cur = (cur ++ a) :: rest.
Proof.
  induction s as [|c s IH]; intros cur; simpl.
  - exists "", []. by rewrite append_nil_r.
  - destruct (Ascii.eqb c sep).
    + exists "", (split_go sep s ""). by rewrite append_nil_r.
    + destruct (IH (cur ++ String c "")) as (a & rest & ->).
      exists (String c a), rest. by rewrite append_char_l.
Qed.

(** A text without separator is one segment. *)
Lemma split_go_no_sep s : forall cur,
  contains sep s = false -> split_go sep s cur = [cur ++ s].
Proof.
  induction s as [|c s IH]; intros cur Hs; simpl in *.
  - by rewrite append_nil_r.
  - apply orb_false_iff in Hs as [-> Hs].
    rewrite IH by done. by rewrite append_char_l.
Qed.

Lemma split_go_sep a b : forall cur,
  contains sep a = false ->
  split_go sep (a ++ String sep b) cur = (cur ++ a) :: split_go sep b "".
Proof.
  induction a as [|c a IH]; intros cur Ha.
  - rewrite append_nil_l, append_nil_r. simpl. by rewrite Ascii.eqb_refl.
  - simpl in Ha. apply orb_false_iff in Ha as [Hc Ha].
    rewrite append_cons. simpl. rewrite Hc, IH by done.
    by rewrite append_char_l.
Qed.

Lemma split_go_one s : forall cur x,
  split_go sep s cur = [x] -> x = cur ++ s /\ contains sep s = false.
Proof.
  induction s as [|c s IH]; intros cur x; simpl.
  - intros [= <-]. by rewrite append_nil_r.
  - destruct (Ascii.eqb c sep) eqn:Hc.
    + destruct (split_go_head s "") as (a & rest & ->). discriminate.
    + intros [-> Hs]%IH. by rewrite append_char_l.
Qed.

Lemma split_go_two s : forall cur x y,
  split_go sep s cur = [x; y] ->
  exists a, x = cur ++ a /\ s = a ++ String sep y
            /\ contains sep a = false /\ contains sep y = false.
Proof.
  induction s as [|c s IH]; intros cur x y; simpl; [discriminate|].
  destruct (Ascii.eqb_spec c sep) as [->|Hc].
  - intros [= <- Hy]. apply split_go_one in Hy as [-> Hy].
    exists "". by rewrite append_nil_r, !append_nil_l.
  - intros (a & -> & -> & Ha & Hy)%IH. exists (String c a).
    rewrite append_char_l, append_cons. simpl.
    by apply Ascii.eqb_neq in Hc as ->.
Qed.

(** [split] yields two segments exactly on [a ++ sep ++ b] with no
    separator inside [a] or [b]. *)
Lemma split_two_iff s a b :
  split sep s = [a; b] <->
  s = a ++ String sep b /\ contains sep a = false /\ contains sep b = false.
Proof.
  unfold split. split.
  - intros (a' & -> & -> & Ha & Hb)%split_go_two. done.
  - intros (-> & Ha & Hb). rewrite split_go_sep by done.
    by rewrite split_go_no_sep.
Qed.

End Split.

Lemma length_split_go sep s : forall cur,
  length (split_go sep s cur) = S (count_char sep s).
Proof.
  induction s as [|c s IH]; intros cur; simpl; [done|].
  destruct (Ascii.eqb c sep); simpl; by rewrite IH.
Qed.

(** The two-part dotted texts are the texts with exactly one dot. *)
Lemma two_part_iff_one_dot s :
  (exists app_name model_name, two_part_dotted s app_name model_name)
  <-> count_char "." s = 1%nat.
Proof.
  split.
  - intros (a & m & Hs%split_two_iff).
    pose proof (length_split_go "." s "") as Hlen.
    unfold split in Hs. rewrite Hs in Hlen. simpl in Hlen. lia.
  - intros Hcount.
    pose proof (length_split_go "." s "") as Hlen. rewrite Hcount in Hlen.
    destruct (split_go "." s "") as [|a [|m [|x l]]] eqn:Hs; try done.
    exists a, m. by apply split_two_iff.
Qed.


(** ** [get_field_kwargs] *)

(** Closes [k <> "key"] from a hypothesis that [k] is outside a list of
    keys containing ["key"]. *)
Ltac key_neq := intros ?; subst; set_solver.

(** Case analysis on the next test of the function under study. *)
Ltac case_test :=
  match goal with
  | |- context [if ?b then _ else _] => destruct b eqn:?
  | |- context [match ?o with Some _ => _ | None => _ end] => destruct o eqn:?
  | |- context [match ?l with [] => _ | _ :: _ => _ end] => destruct l eqn:?
  end.

Section FieldKwargsFacts.

Variable needs_label : field -> string -> bool.
Variable capfirst : Py.value -> Py.value.

Local Abbreviation common_of := (common_kwargs needs_label capfirst).

Implicit Types (f : field) (vs : list validator)
  (kwargs : gmap string kwvalue).

(** *** Lines 107-130 *)

Lemma dom_common_kwargs field_name f :
  dom (common_of field_name f) =
    {["model_field"]}
    ∪ (if label_wanted needs_label field_name f then {["label"]} else ∅)
    ∪ (if truthy (help_text f) then {["help_text"]} else ∅)
    ∪ (if isinstance f DecimalField
       then {["decimal_places"; "max_digits"]} else (∅ : gset string)).
Proof.
  unfold common_kwargs, label_wanted.
  destruct (truthy (verbose_name f) && needs_label f field_name),
    (truthy (help_text f)), (isinstance f DecimalField);
    rewrite ?dom_insert_L, ?dom_empty_L; set_solver.
Qed.

Lemma common_kwargs_model_field field_name f :
  common_of field_name f !! "model_field" = Some (KField f).
Proof.
  unfold common_kwargs.
  repeat case_test; by simplify_map_eq.
Qed.

Lemma common_kwargs_absent field_name f k :
  k ∉ ["model_field"; "label"; "help_text"; "decimal_places"; "max_digits"] ->
  common_of field_name f !! k = None.
Proof.
  intros Hk. apply not_elem_of_dom. rewrite dom_common_kwargs.
  repeat case_test; set_solver.
Qed.

Lemma common_kwargs_decimal field_name f :
  isinstance f DecimalField = true ->
  common_of field_name f !! "decimal_places"
    = Some (KVal (PyInt (precision f)))
  /\ common_of field_name f !! "max_digits"
    = Some (KVal (PyInt (match max_value f with
                         | Some v => len_str_number v + precision f
                         | None => 65536
                         end))).
Proof.
  intros Hdec. unfold common_kwargs.
  rewrite Hdec. by simplify_map_eq.
Qed.

Lemma common_not_decimal field_name f :
  isinstance f DecimalField = false ->
  common_of field_name f !! "decimal_places" = None
  /\ common_of field_name f !! "max_digits" = None.
Proof.
  intros Hdec. unfold common_kwargs. rewrite Hdec.
  destruct (truthy (verbose_name f) && needs_label f field_name),
    (truthy (help_text f)); split; by simplify_map_eq.
Qed.

Lemma common_label_help field_name f :
  common_of field_name f !! "label"
    = (if label_wanted needs_label field_name f
       then Some (KVal (capfirst (verbose_name f))) else None)
  /\ common_of field_name f !! "help_text"
    = (if truthy (help_text f) then Some (KVal (help_text f)) else None).
Proof.
  unfold common_kwargs, label_wanted.
  destruct (truthy (verbose_name f) && needs_label f field_name),
    (truthy (help_text f)), (isinstance f DecimalField);
    split; by simplify_map_eq.
Qed.

(** *** Lines 138-147 *)

Lemma required_kwargs_required f kwargs :
  required_kwargs f kwargs !! "required"
    = Some (KVal (if truthy (default f) then PyBool false else required f)).
Proof.
  unfold required_kwargs.
  destruct (truthy (default f)), (isinstance f ComplexBaseField),
    (truthy (null f)); simpl; by simplify_map_eq.
Qed.

Lemma required_kwargs_default f kwargs :
  required_kwargs f kwargs !! "default"
    = if truthy (default f) && negb (isinstance f ComplexBaseField)
      then Some (KVal (default f)) else kwargs !! "default".
Proof.
  unfold required_kwargs.
  destruct (truthy (default f)), (isinstance f ComplexBaseField),
    (truthy (null f)); simpl; by simplify_map_eq.
Qed.

Lemma required_kwargs_allow_null f kwargs :
  required_kwargs f kwargs !! "allow_null"
    = if truthy (null f) then Some (KVal (PyBool true))
      else kwargs !! "allow_null".
Proof.
  unfold required_kwargs.
  destruct (truthy (default f)), (isinstance f ComplexBaseField),
    (truthy (null f)); simpl; by simplify_map_eq.
Qed.

Lemma required_kwargs_other f kwargs k :
  k ∉ ["required"; "default"; "allow_null"] ->
  required_kwargs f kwargs !! k = kwargs !! k.
Proof.
  intros Hk. unfold required_kwargs.
  destruct (truthy (default f)), (isinstance f ComplexBaseField),
    (truthy (null f)); simpl;
    rewrite ?lookup_insert_ne; try done; key_neq.
Qed.

(** *** Lines 155-169 *)

Lemma bound_kwargs_other f kwargs k :
  k ∉ ["max_length"; "min_length"; "max_value"; "min_value"] ->
  bound_kwargs f kwargs !! k = kwargs !! k.
Proof.
  intros Hk. unfold bound_kwargs.
  repeat case_test; rewrite ?lookup_insert_ne; try done; key_neq.
Qed.

Lemma bound_max_length f kwargs :
  bound_kwargs f kwargs !! "max_length"
    = match max_length f with
      | Some v => if isinstance f StringField then Some (KVal (PyInt v))
                  else kwargs !! "max_length"
      | None => kwargs !! "max_length"
      end.
Proof. unfold bound_kwargs. repeat case_test; by simplify_map_eq. Qed.

Lemma bound_min_length f kwargs :
  bound_kwargs f kwargs !! "min_length"
    = match min_length f with
      | Some v => if isinstance f StringField then Some (KVal (PyInt v))
                  else kwargs !! "min_length"
      | None => kwargs !! "min_length"
      end.
Proof. unfold bound_kwargs. repeat case_test; by simplify_map_eq. Qed.

Lemma bound_max_value f kwargs :
  bound_kwargs f kwargs !! "max_value"
    = match max_value f with
      | Some v => if isinstance_any f NUMERIC_FIELD_TYPES
                  then Some (KNumber v) else kwargs !! "max_value"
      | None => kwargs !! "max_value"
      end.
Proof. unfold bound_kwargs. repeat case_test; by simplify_map_eq. Qed.

Lemma bound_min_value f kwargs :
  bound_kwargs f kwargs !! "min_value"
    = match min_value f with
      | Some v => if isinstance_any f NUMERIC_FIELD_TYPES
                  then Some (KNumber v) else kwargs !! "min_value"
      | None => kwargs !! "min_value"
      end.
Proof. unfold bound_kwargs. repeat case_test; by simplify_map_eq. Qed.

(** *** Lines 171-178 *)

Lemma validators_kwargs_other vs kwargs k :
  k <> "validators" -> validators_kwargs vs kwargs !! k = kwargs !! k.
Proof.
  intros Hk. unfold validators_kwargs.
  destruct vs; [done | by rewrite lookup_insert_ne].
Qed.

Lemma validators_kwargs_validators vs kwargs :
  validators_kwargs vs kwargs !! "validators"
    = match vs with
      | [] => kwargs !! "validators"
      | _ :: _ => Some (KValidators vs)
      end.
Proof.
  unfold validators_kwargs. destruct vs; [done | by rewrite lookup_insert_eq].
Qed.

Lemma unique_validator_kwarg_cases f vs :
  unique_validator_kwarg f vs
    = if truthy (getattr (unique f) (PyBool false))
         && match model f with None => true | Some _ => false end
      then inl (AttributeError "model")
      else inr (vs ++ unique_validators f)%list.
Proof.
  unfold unique_validator_kwarg, unique_validators.
  destruct (truthy (getattr (unique f) (PyBool false))), (model f);
    simpl; by rewrite ?app_nil_r.
Qed.

(** *** The three ways out of the function *)

Lemma get_field_kwargs_cases field_name f :
  get_field_kwargs needs_label capfirst field_name f
    = if is_read_only f
      then inr (<["read_only" := KVal (PyBool true)]> (common_of field_name f))
      else if truthy (choices f)
      then inr (<["choices" := KVal (choices f)]>
                  (required_kwargs f (common_of field_name f)))
      else if unique_without_model f
      then inl (AttributeError "model")
      else inr (validators_kwargs
                  (pending_validators f ++ unique_validators f)%list
                  (bound_kwargs f (required_kwargs f (common_of field_name f)))).
Proof.
  unfold get_field_kwargs, unique_without_model, pending_validators.
  destruct (is_read_only f); [done|].
  destruct (truthy (choices f)); [done|].
  rewrite unique_validator_kwarg_cases. simpl.
  by destruct (truthy (getattr (unique f) (PyBool false)) && _).
Qed.

(** The call returns a mapping unless the field reaches line 173 without
    a [model] attribute. *)
Lemma get_field_kwargs_returns field_name f :
  unique_without_model f = false ->
  exists kwargs, get_field_kwargs needs_label capfirst field_name f = inr kwargs.
Proof.
  intros Hok. rewrite get_field_kwargs_cases, Hok.
  destruct (is_read_only f), (truthy (choices f)); eauto.
Qed.

(** One step of a lookup through the pieces of the function. *)
Ltac kw_step :=
  first
    [ rewrite lookup_insert_eq
    | rewrite lookup_insert_ne by done
    | rewrite validators_kwargs_other by done
    | rewrite validators_kwargs_validators
    | rewrite bound_kwargs_other by set_solver
    | rewrite bound_max_length
    | rewrite bound_min_length
    | rewrite bound_max_value
    | rewrite bound_min_value
    | rewrite required_kwargs_other by set_solver
    | rewrite required_kwargs_required
    | rewrite required_kwargs_default
    | rewrite required_kwargs_allow_null
    | rewrite common_kwargs_model_field
    | rewrite common_kwargs_absent by set_solver ].

(** The returned mapping, by the way out that the field takes. *)
Ltac kw_returned Hok :=
  rewrite get_field_kwargs_cases, ?Hok;
  let Hro := fresh "Hro" in
  let Hch := fresh "Hch" in
  destruct (is_read_only _) eqn:Hro;
    [|destruct (truthy (choices _)) eqn:Hch];
    (eexists; split; [reflexivity|]); simpl.

(** The read-only test, spelled out. *)
Lemma is_read_only_iff f :
  is_read_only f = true <->
  isinstance f SequenceField = true
  \/ truthy (primary_key f) = true
  \/ db_field f = PyStr "_id".
Proof.
  unfold is_read_only. rewrite !orb_true_iff.
  assert (eq_str (db_field f) "_id" = true <-> db_field f = PyStr "_id")
    as ->; [|tauto].
  unfold eq_str. destruct (db_field f); try (split; [done | congruence]).
  rewrite String.eqb_eq. split; congruence.
Qed.

(** C1 (as amended).  A sequence field, a primary key, or a field stored
    in the [_id] column yields exactly the keys [model_field] and
    [read_only] (the latter [True]), plus [label] and [help_text] when
    they were set before the early return, plus [decimal_places] and
    [max_digits] when the field is a decimal field; none of [required],
    [default], [max_length], [min_length], [max_value], [min_value] is
    present. *)
Theorem read_only_kwargs field_name f :
  isinstance f SequenceField = true
  \/ truthy (primary_key f) = true
  \/ db_field f = PyStr "_id" ->
  exists kwargs,
    get_field_kwargs needs_label capfirst field_name f = inr kwargs
    /\ dom kwargs = read_only_key_set needs_label field_name f
    /\ kwargs !! "model_field" = Some (KField f)
    /\ kwargs !! "read_only" = Some (KVal (PyBool true))
    /\ Forall (fun k => kwargs !! k = None)
         ["required"; "default"; "max_length"; "min_length";
          "max_value"; "min_value"].
Proof.
  intros Hro%is_read_only_iff.
  rewrite get_field_kwargs_cases, Hro. eexists. split; [reflexivity|].
  assert (dom (<["read_only" := KVal (PyBool true)]> (common_of field_name f))
          = read_only_key_set needs_label field_name f) as Hdom.
  { rewrite dom_insert_L, dom_common_kwargs.
    unfold read_only_key_set. set_solver. }
  split; [done|]. split_and!.
  - by repeat kw_step.
  - by repeat kw_step.
  - repeat constructor;
      apply not_elem_of_dom; rewrite Hdom; unfold read_only_key_set;
      repeat case_test; set_solver.
Qed.

(** C2.  What the code does with a declared default that is not a true
    value (0, [False], empty text, an empty list): for a field that is
    not read-only, [required] stays the field's own [required] attribute
    and no [default] is passed on. *)
Theorem falsy_default_dropped field_name f :
  is_read_only f = false ->
  unique_without_model f = false ->
  default f <> PyNone ->
  truthy (default f) = false ->
  exists kwargs,
    get_field_kwargs needs_label capfirst field_name f = inr kwargs
    /\ kwargs !! "required" = Some (KVal (required f))
    /\ kwargs !! "default" = None.
Proof.
  intros Hro Hok _ Hdef.
  rewrite get_field_kwargs_cases, Hro, Hok.
  destruct (truthy (choices f)); (eexists; split; [reflexivity|]);
    split; repeat kw_step; by rewrite Hdef.
Qed.

(** C5.  A field that is not read-only and declares choices gets
    [choices] equal to them and none of [max_length], [min_length],
    [max_value], [min_value], [validators], whether or not it is unique
    or carries a validation function. *)
Theorem choices_kwargs field_name f :
  is_read_only f = false ->
  truthy (choices f) = true ->
  exists kwargs,
    get_field_kwargs needs_label capfirst field_name f = inr kwargs
    /\ kwargs !! "choices" = Some (KVal (choices f))
    /\ Forall (fun k => kwargs !! k = None)
         ["max_length"; "min_length"; "max_value"; "min_value"; "validators"].
Proof.
  intros Hro Hch.
  rewrite get_field_kwargs_cases, Hro, Hch. eexists. split; [reflexivity|].
  split; [by rewrite lookup_insert_eq|].
  repeat constructor; by repeat kw_step.
Qed.

Lemma get_field_kwargs_early field_name f k kwargs :
  get_field_kwargs needs_label capfirst field_name f = inr kwargs ->
  k ∉ ("read_only" :: writable_keys ++ constraint_keys)%list ->
  kwargs !! k = common_of field_name f !! k.
Proof.
  unfold writable_keys, constraint_keys. simpl. intros Hkw Hk. revert Hkw.
  assert (k <> "read_only" /\ k <> "choices" /\ k <> "validators"
          /\ (k ∉ ["required"; "default"; "allow_null"])
          /\ (k ∉ ["max_length"; "min_length"; "max_value"; "min_value"]))
    as (? & ? & ? & ? & ?) by set_solver.
  rewrite get_field_kwargs_cases.
  destruct (is_read_only f); [|destruct (truthy (choices f));
    [|destruct (unique_without_model f); [done|]]];
    intros [= <-];
    rewrite ?lookup_insert_ne, ?validators_kwargs_other,
      ?bound_kwargs_other, ?required_kwargs_other by done; done.
Qed.


(** C7.  What the code does with a unique field that has no [model]
    attribute, as no field built by mongoengine has one: when the field
    is not read-only and has no choices, the call raises the
    [AttributeError] of line 173 and returns no mapping. *)
Theorem unique_field_raises field_name f :
  is_read_only f = false ->
  truthy (choices f) = false ->
  truthy (getattr (unique f) (PyBool false)) = true ->
  model f = None ->
  get_field_kwargs needs_label capfirst field_name f
    = inl (AttributeError "model").
Proof.
  intros Hro Hch Huniq Hmodel.
  rewrite get_field_kwargs_cases, Hro, Hch.
  unfold unique_without_model. by rewrite Hro, Hch, Huniq, Hmodel.
Qed.

(** *** Key by key *)

(** X1.  Whatever the field, a returned mapping holds the field
    definition itself under [model_field]. *)
Theorem kwargs_model_field_always field_name f :
  unique_without_model f = false ->
  exists kwargs,
    get_field_kwargs needs_label capfirst field_name f = inr kwargs
    /\ kwargs !! "model_field" = Some (KField f).
Proof. intros Hok. kw_returned Hok; by repeat kw_step. Qed.

(** X2.  A returned mapping never has a key outside the fifteen keys that
    the function writes. *)
Theorem kwargs_keys_known field_name f :
  unique_without_model f = false ->
  exists kwargs,
    get_field_kwargs needs_label capfirst field_name f = inr kwargs
    /\ dom kwargs ⊆ list_to_set known_keys.
Proof.
  intros Hok.
  destruct (get_field_kwargs_returns field_name f Hok) as [kwargs Hkw].
  exists kwargs. split; [done|]. intros k Hk.
  destruct (decide (k ∈ ("read_only" :: writable_keys ++ constraint_keys)%list))
    as [Hin|Hout].
  - unfold writable_keys, constraint_keys, known_keys in *. set_solver.
  - apply elem_of_dom in Hk.
    rewrite (get_field_kwargs_early field_name f k kwargs) in Hk by done.
    apply elem_of_dom in Hk. rewrite dom_common_kwargs in Hk.
    unfold known_keys.
    destruct (label_wanted needs_label field_name f), (truthy (help_text f)),
      (isinstance f DecimalField); set_solver.
Qed.

(** X3.  Exactly one of [read_only] and [required] is present: a
    read-only field has [read_only = True] and no [required]; any other
    field has no [read_only], and its [required] is [False] when its
    default is a true value and its own [required] attribute otherwise. *)
Theorem read_only_or_required field_name f :
  unique_without_model f = false ->
  exists kwargs,
    get_field_kwargs needs_label capfirst field_name f = inr kwargs
    /\ kwargs !! "read_only"
       = (if is_read_only f then Some (KVal (PyBool true)) else None)
    /\ kwargs !! "required"
       = (if is_read_only f then None
          else Some (KVal (if truthy (default f) then PyBool false
                           else required f))).
Proof. intros Hok. kw_returned Hok; split; by repeat kw_step. Qed.

(** X4.  [default] is present exactly for a field that is not read-only,
    whose default is a true value and which is not a complex field; it
    then holds that default.  A complex field never gets a [default]. *)
Theorem default_key field_name f :
  unique_without_model f = false ->
  exists kwargs,
    get_field_kwargs needs_label capfirst field_name f = inr kwargs
    /\ kwargs !! "default"
       = if negb (is_read_only f) && truthy (default f)
            && negb (isinstance f ComplexBaseField)
         then Some (KVal (default f)) else None.
Proof.
  intros Hok. kw_returned Hok; repeat kw_step; try done;
    by destruct (truthy (default f)), (isinstance f ComplexBaseField);
      simpl; repeat kw_step.
Qed.

(** X5.  [allow_null] and [choices] are present exactly for a field that
    is not read-only and whose [null], respectively [choices], is a true
    value; a read-only field with choices gets no [choices]. *)
Theorem allow_null_and_choices_keys field_name f :
  unique_without_model f = false ->
  exists kwargs,
    get_field_kwargs needs_label capfirst field_name f = inr kwargs
    /\ kwargs !! "allow_null"
       = (if negb (is_read_only f) && truthy (null f)
          then Some (KVal (PyBool true)) else None)
    /\ kwargs !! "choices"
       = (if negb (is_read_only f) && truthy (choices f)
          then Some (KVal (choices f)) else None).
Proof.
  intros Hok. kw_returned Hok; rewrite ?Hch; simpl; split;
    repeat kw_step; try done;
    by destruct (truthy (null f)); repeat kw_step.
Qed.

(** X6.  [max_length] and [min_length] are passed on only for a string
    field (or a subclass of it) that is not read-only and has no choices;
    they then hold the declared lengths, a length of 0 included. *)
Theorem length_keys field_name f :
  unique_without_model f = false ->
  let applies :=
    negb (is_read_only f) && negb (truthy (choices f))
    && isinstance f StringField in
  exists kwargs,
    get_field_kwargs needs_label capfirst field_name f = inr kwargs
    /\ kwargs !! "max_length"
       = (if applies then KVal ∘ PyInt <$> max_length f else None)
    /\ kwargs !! "min_length"
       = (if applies then KVal ∘ PyInt <$> min_length f else None).
Proof.
  intros Hok applies. subst applies.
  kw_returned Hok; rewrite ?Hch; simpl; split; repeat kw_step; try done.
  - by destruct (max_length f), (isinstance f StringField);
      simpl; repeat kw_step.
  - by destruct (min_length f), (isinstance f StringField);
      simpl; repeat kw_step.
Qed.

(** X7.  [max_value] and [min_value] are passed on only for an integer,
    long, float or decimal field that is not read-only and has no
    choices; they then hold the declared bounds, a bound of 0 included. *)
Theorem value_keys field_name f :
  unique_without_model f = false ->
  let applies :=
    negb (is_read_only f) && negb (truthy (choices f))
    && isinstance_any f NUMERIC_FIELD_TYPES in
  exists kwargs,
    get_field_kwargs needs_label capfirst field_name f = inr kwargs
    /\ kwargs !! "max_value"
       = (if applies then KNumber <$> max_value f else None)
    /\ kwargs !! "min_value"
       = (if applies then KNumber <$> min_value f else None).
Proof.
  intros Hok applies. subst applies.
  rewrite get_field_kwargs_cases, Hok.
  destruct (is_read_only f), (truthy (choices f));
    (eexists; split; [reflexivity|]);
    cbn [negb andb]; split; repeat kw_step; try done.
  - by destruct (max_value f), (isinstance_any f NUMERIC_FIELD_TYPES);
      cbn [fmap option_fmap option_map]; repeat kw_step.
  - by destruct (min_value f), (isinstance_any f NUMERIC_FIELD_TYPES);
      cbn [fmap option_fmap option_map]; repeat kw_step.
Qed.

(** X8.  A field that reaches line 173 unique and without [model]
    attribute makes the call raise [AttributeError].  Otherwise a mapping
    is returned: for a field that is read-only or has choices it has no
    [validators] key; for any other field the key is present exactly when
    the field has a validation function or is unique, and the list holds
    the validation function first and the uniqueness validator, over the
    default manager of the field's [model], last. *)
Theorem validators_key field_name f :
  (unique_without_model f = true ->
   get_field_kwargs needs_label capfirst field_name f
     = inl (AttributeError "model"))
  /\ (unique_without_model f = false ->
      exists kwargs,
        get_field_kwargs needs_label capfirst field_name f = inr kwargs
        /\ kwargs !! "validators"
           = if is_read_only f || truthy (choices f) then None
             else match (pending_validators f ++ unique_validators f)%list
                  with
                  | [] => None
                  | all => Some (KValidators all)
                  end).
Proof.
  split; intros Hok.
  - rewrite get_field_kwargs_cases, Hok. unfold unique_without_model in Hok.
    by destruct (is_read_only f), (truthy (choices f)).
  - kw_returned Hok; repeat kw_step; try done.
    by destruct (pending_validators f ++ unique_validators f)%list;
      repeat kw_step.
Qed.

(** X9.  [decimal_places] and [max_digits] are present exactly for a
    decimal field, read-only or not, with or without choices; an integer,
    long or float field never gets them. *)
Theorem decimal_keys field_name f :
  unique_without_model f = false ->
  exists kwargs,
    get_field_kwargs needs_label capfirst field_name f = inr kwargs
    /\ kwargs !! "decimal_places"
       = (if isinstance f DecimalField
          then Some (KVal (PyInt (precision f))) else None)
    /\ kwargs !! "max_digits"
       = (if isinstance f DecimalField
          then Some (KVal (PyInt (match max_value f with
                                  | Some v => len_str_number v + precision f
                                  | None => 65536
                                  end)))
          else None).
Proof.
  intros Hok.
  destruct (get_field_kwargs_returns field_name f Hok) as [kwargs Hkw].
  exists kwargs. split; [done|].
  rewrite !(get_field_kwargs_early field_name f _ kwargs Hkw)
    by (unfold writable_keys, constraint_keys; set_solver).
  destruct (isinstance f DecimalField) eqn:Hdec.
  - by apply common_kwargs_decimal.
  - by apply common_not_decimal.
Qed.

(** X10.  [label] and [help_text] do not depend on the read-only test or
    on the choices: [help_text] is present exactly when the field's help
    text is a true value, and [label] exactly when its verbose name is a
    true value and the labelling helper asks for a label; the label is
    the capitalised verbose name. *)
Theorem label_and_help_text_keys field_name f :
  unique_without_model f = false ->
  exists kwargs,
    get_field_kwargs needs_label capfirst field_name f = inr kwargs
    /\ kwargs !! "label"
       = (if truthy (verbose_name f) && needs_label f field_name
          then Some (KVal (capfirst (verbose_name f))) else None)
    /\ kwargs !! "help_text"
       = (if truthy (help_text f) then Some (KVal (help_text f)) else None).
Proof.
  intros Hok.
  destruct (get_field_kwargs_returns field_name f Hok) as [kwargs Hkw].
  exists kwargs. split; [done|].
  rewrite !(get_field_kwargs_early field_name f _ kwargs Hkw)
    by (unfold writable_keys, constraint_keys; set_solver).
  apply common_label_help.
Qed.

End FieldKwargsFacts.

(** ** [_resolve_model] *)

Section ResolveModelFacts.

Variable get_document : string -> exn + option pyclass.
Variable BaseDocument : exn + (pyclass -> bool).

Lemma resolve_two_part s app_name model_name :
  two_part_dotted s app_name model_name ->
  _resolve_model get_document BaseDocument (ObjStr s) =
    match get_document model_name with
    | inl e => inl e
    | inr None =>
        inl (ImproperlyConfigured
               ("Mongoengine did not return a model for "
                ++ app_name ++ "." ++ model_name))
    | inr (Some c) => inr c
    end.
Proof.
  intros Hs. unfold _resolve_model.
  assert (split "." s = [app_name; model_name]) as ->
    by by apply split_two_iff.
  done.
Qed.

Lemma resolve_not_a_reference obj :
  not_a_reference obj ->
  _resolve_model get_document BaseDocument obj = inl (not_a_document obj).
Proof.
  unfold _resolve_model.
  destruct obj as [s|c|text]; simpl; [|done|done].
  intros Hs.
  destruct (split "." s) as [|a [|m [|x l]]] eqn:Hsplit; try done.
  apply split_two_iff in Hsplit. by destruct (Hs a m).
Qed.

(** C3.  What the code does when its two lookups raise.  An exception of
    [get_document] for the model name of a two-part dotted name leaves
    the function as it is: line 42 is not reached and no
    [ImproperlyConfigured] is raised.  An exception of the lookup
    [mongoengine.BaseDocument] leaves the function for every class that
    is passed, document or not: no class is returned and no [ValueError]
    is raised. *)
Theorem resolve_model_propagates :
  (forall s app_name model_name e,
      two_part_dotted s app_name model_name ->
      get_document model_name = inl e ->
      _resolve_model get_document BaseDocument (ObjStr s) = inl e)
  /\ (forall c e,
      BaseDocument = inl e ->
      _resolve_model get_document BaseDocument (ObjClass c) = inl e).
Proof.
  split.
  - intros s a m e Hs He. by rewrite (resolve_two_part s a m), He.
  - intros c e He. unfold _resolve_model. by rewrite He.
Qed.

(** X19.  The application label of a dotted name is ignored: two dotted
    names with the same model name resolve to the same class, and one
    fails exactly when the other does. *)
Theorem resolve_ignores_app_label s s' app_name app_name' model_name :
  two_part_dotted s app_name model_name ->
  two_part_dotted s' app_name' model_name ->
  forall c,
    _resolve_model get_document BaseDocument (ObjStr s) = inr c
    <-> _resolve_model get_document BaseDocument (ObjStr s') = inr c.
Proof.
  intros Hs Hs' c.
  rewrite (resolve_two_part s app_name model_name) by done.
  rewrite (resolve_two_part s' app_name' model_name) by done.
  by destruct (get_document model_name) as [e|[c'|]].
Qed.

(** X20.  Text that is no two-part dotted name and objects that are no
    classes get the value error naming them whatever the registry and the
    [mongoengine] module hold: nothing is looked up.  For a class the
    outcome rests on the lookup of [mongoengine.BaseDocument] alone: when
    it succeeds, a subclass is returned as it is and any other class gets
    the value error. *)
Theorem resolve_value_error :
  (forall obj,
      not_a_reference obj ->
      _resolve_model get_document BaseDocument obj
        = inl (ValueError (str_obj obj ++ " is not a MongoDB Document")))
  /\ (forall c issubclass_of_it,
      BaseDocument = inr issubclass_of_it ->
      _resolve_model get_document BaseDocument (ObjClass c)
        = if issubclass_of_it c then inr c
          else inl (ValueError
                      (str_obj (ObjClass c) ++ " is not a MongoDB Document"))).
Proof.
  split.
  - apply resolve_not_a_reference.
  - intros c test Htest. unfold _resolve_model. by rewrite Htest.
Qed.

(** X21.  Text reaches the registry exactly when it holds one dot: with
    no dot or with two or more the value error is raised without a
    lookup, even for the name of a registered document; with one dot the
    outcome is the registry's answer for the text after the dot: its
    exception, the configuration error when it answers [None], or the
    class it returns. *)
Theorem resolve_one_dot s :
  (count_char "." s <> 1%nat ->
   _resolve_model get_document BaseDocument (ObjStr s)
     = inl (not_a_document (ObjStr s)))
  /\ (count_char "." s = 1%nat ->
      exists app_name model_name,
        s = app_name ++ "." ++ model_name
        /\ _resolve_model get_document BaseDocument (ObjStr s)
           = match get_document model_name with
             | inl e => inl e
             | inr None =>
                 inl (ImproperlyConfigured
                        ("Mongoengine did not return a model for "
                         ++ app_name ++ "." ++ model_name))
             | inr (Some c) => inr c
             end).
Proof.
  split.
  - intros Hcount. apply resolve_not_a_reference. simpl. intros a m Hs.
    apply Hcount, two_part_iff_one_dot. eauto.
  - intros (a & m & Hs)%two_part_iff_one_dot. exists a, m.
    split; [apply Hs|]. by apply resolve_two_part.
Qed.

End ResolveModelFacts.

(** ** Ordered dictionaries *)

Section OrderedDictFacts.

Import OrderedDict.
Local Open Scope list_scope.

Context {V : Type}.
Implicit Types (d other : OrderedDict.t V) (k : string) (v : V).

Lemma get_set d k k' v :
  get k (set k' v d) = if decide (k = k') then Some v else get k d.
Proof.
  induction d as [|[k0 v0] d IH]; simpl.
  - destruct (String.eqb_spec k' k); case_decide; congruence.
  - destruct (String.eqb_spec k0 k'); simpl;
      destruct (String.eqb_spec k0 k); case_decide; congruence.
Qed.

Lemma get_None d k : get k d = None <-> k ∉ keys d.
Proof.
  induction d as [|[k0 v0] d IH]; simpl.
  - split; [set_solver | done].
  - rewrite not_elem_of_cons.
    destruct (String.eqb_spec k0 k); [|rewrite IH]; naive_solver.
Qed.

Lemma set_fresh d k v : k ∉ keys d -> set k v d = d ++ [(k, v)].
Proof.
  induction d as [|[k0 v0] d IH]; simpl; [done|].
  rewrite not_elem_of_cons. intros [Hne Hk].
  destruct (String.eqb_spec k0 k); [congruence|]. by rewrite IH.
Qed.

Lemma keys_set_present d k v : k ∈ keys d -> keys (set k v d) = keys d.
Proof.
  induction d as [|[k0 v0] d IH]; simpl; [set_solver|].
  destruct (String.eqb_spec k0 k); [done|].
  rewrite elem_of_cons. intros [?|Hk]; [congruence|]. simpl.
  by rewrite IH.
Qed.

Lemma NoDup_keys_set d k v : NoDup (keys d) -> NoDup (keys (set k v d)).
Proof.
  intros Hd. destruct (decide (k ∈ keys d)) as [Hk|Hk].
  - by rewrite keys_set_present.
  - rewrite set_fresh by done. unfold keys. rewrite map_app. simpl.
    apply NoDup_app. split; [done|]. split; [|apply NoDup_singleton].
    intros x Hx ->%list_elem_of_singleton. done.
Qed.

Lemma update_fresh other : forall d,
  NoDup (keys other) ->
  (forall k, k ∈ keys other -> k ∉ keys d) ->
  update d other = d ++ other.
Proof.
  unfold update, items.
  induction other as [|[k v] other IH]; intros d Hnd Hfresh; simpl.
  - by rewrite app_nil_r.
  - simpl in Hnd. apply NoDup_cons in Hnd as [Hk Hnd].
    rewrite set_fresh by (apply Hfresh; set_solver).
    rewrite IH; [by rewrite <- app_assoc | done |].
    intros k' Hk'. unfold keys. rewrite map_app. simpl.
    rewrite not_elem_of_app, list_elem_of_singleton. split.
    + apply Hfresh. set_solver.
    + intros ->. done.
Qed.

Lemma get_update other : forall d k,
  NoDup (keys other) ->
  get k (update d other) =
    match get k other with Some v => Some v | None => get k d end.
Proof.
  unfold update, items.
  induction other as [|[k0 v0] other IH]; intros d k Hnd; simpl; [done|].
  simpl in Hnd. apply NoDup_cons in Hnd as [Hk Hnd].
  rewrite IH by done. rewrite get_set.
  destruct (String.eqb_spec k0 k) as [->|Hne].
  - apply get_None in Hk. rewrite Hk. by case_decide.
  - case_decide; [congruence | done].
Qed.

Lemma set_head d k v k0 v0 :
  exists v' d', set k0 v0 ((k, v) :: d) = (k, v') :: d'.
Proof. simpl. destruct (String.eqb k k0); eauto. Qed.

Lemma update_head other : forall d k v,
  exists v' d', update ((k, v) :: d) other = (k, v') :: d'.
Proof.
  unfold update, items.
  induction other as [|[k0 v0] other IH]; intros d k v; simpl; [eauto|].
  destruct (String.eqb k k0); apply IH.
Qed.

End OrderedDictFacts.

(** ** Ordered dictionaries: order of the keys *)

Section OrderedDictKeys.

Import OrderedDict.
Local Open Scope list_scope.

Context {V : Type}.
Implicit Types (d other : OrderedDict.t V) (k : string) (v : V).

Lemma filter_agree (P Q : string -> Prop)
    `{!forall x, Decision (P x)} `{!forall x, Decision (Q x)} (l : list string) :
  (forall x, x ∈ l -> P x <-> Q x) -> filter P l = filter Q l.
Proof.
  induction l as [|x l IH]; intros Hl; [done|].
  rewrite !filter_cons.
  rewrite IH by (intros y Hy; apply Hl; by right).
  destruct (decide (P x)) as [HP|HP], (decide (Q x)) as [HQ|HQ]; try done;
    exfalso; apply (Hl x (list_elem_of_here _ _)) in HP || apply HP;
    try done; by apply (Hl x (list_elem_of_here _ _)).
Qed.

Lemma keys_set d k v :
  keys (set k v d) = if decide (k ∈ keys d) then keys d else keys d ++ [k].
Proof.
  case_decide as Hk.
  - by apply keys_set_present.
  - rewrite set_fresh by done. unfold keys. by rewrite map_app.
Qed.

(** [update] keeps the keys of the updated dictionary in place and
    appends the new keys in the order of the argument. *)
Lemma keys_update other : forall d,
  NoDup (keys other) ->
  keys (update d other) = keys d ++ filter (fun k => k ∉ keys d) (keys other).
Proof.
  induction other as [|[k v] other IH]; intros d Hnd.
  - unfold update. simpl. by rewrite app_nil_r.
  - simpl in Hnd. apply NoDup_cons in Hnd as [Hk Hnd].
    change (update d ((k, v) :: other)) with (update (set k v d) other).
    rewrite IH by done. rewrite keys_set.
    change (keys ((k, v) :: other)) with (k :: keys other).
    destruct (decide (k ∈ keys d)) as [Hin|Hout].
    + rewrite filter_cons_False by (intros Hn; by apply Hn). done.
    + rewrite filter_cons_True by done. rewrite <- app_assoc. simpl.
      do 2 f_equal. apply filter_agree. intros x Hx.
      rewrite not_elem_of_app, list_elem_of_singleton.
      split; [by intros [? _]|]. intros Hxd. split; [done|].
      intros ->. done.
Qed.

End OrderedDictKeys.

(** ** [get_field_info] *)

Section FieldInfoFacts.

Import OrderedDict.
Local Open Scope list_scope.

Implicit Types (model : pyclass) (info : FieldInfo).

Lemma keys_as_entries fs : keys (as_entries fs) = keys fs.
Proof. unfold keys, as_entries. rewrite map_map. by apply map_ext. Qed.

Lemma get_as_entries fs k : get k (as_entries fs) = Some <$> get k fs.
Proof.
  induction fs as [|[k0 f0] fs IH]; simpl; [done|].
  by destruct (String.eqb k0 k).
Qed.

Lemma collect_fields_items model names : forall acc,
  NoDup names ->
  (forall n, n ∈ names -> n ∉ keys acc) ->
  Forall (fun n => is_Some (_fields model !! n)) names ->
  collect_fields model names acc =
    inr (acc ++ omap (fun n => pair n <$> _fields model !! n) names).
Proof.
  induction names as [|n names IH]; intros acc Hnd Hfresh Hall; simpl.
  - by rewrite app_nil_r.
  - apply NoDup_cons in Hnd as [Hn Hnd].
    apply Forall_cons in Hall as [[f Hf] Hall].
    rewrite Hf. simpl.
    rewrite set_fresh by (apply Hfresh; set_solver).
    rewrite IH; [by rewrite <- app_assoc | done | | done].
    intros n' Hn'. unfold keys. rewrite map_app. simpl.
    rewrite not_elem_of_app, list_elem_of_singleton. split.
    + apply Hfresh. set_solver.
    + intros ->. done.
Qed.

Lemma collect_fields_get model names : forall acc fs,
  collect_fields model names acc = inr fs ->
  NoDup (keys acc) ->
  NoDup (keys fs)
  /\ forall n, get n fs =
       if decide (n ∈ names) then _fields model !! n else get n acc.
Proof.
  induction names as [|x names IH]; intros acc fs Hfs Hacc; simpl in Hfs.
  - injection Hfs as <-. split; [done|]. intros n.
    by rewrite decide_False by apply not_elem_of_nil.
  - destruct (_fields model !! x) as [f|] eqn:Hx; [|done].
    destruct (IH _ _ Hfs (NoDup_keys_set acc x f Hacc)) as [Hnd Hget].
    split; [done|]. intros n. rewrite Hget, get_set.
    destruct (decide (n = x)) as [->|Hne].
    + rewrite (decide_True (P := x ∈ x :: names)) by set_solver.
      by case_decide.
    + destruct (decide (n ∈ names)) as [Hn|Hn].
      * by rewrite decide_True by set_solver.
      * by rewrite decide_False by set_solver.
Qed.

Lemma collect_fields_total model names : forall acc,
  Forall (fun n => is_Some (_fields model !! n)) names ->
  exists fs, collect_fields model names acc = inr fs.
Proof.
  induction names as [|n names IH]; intros acc Hall; simpl; [eauto|].
  apply Forall_cons in Hall as [[f Hf] Hall]. rewrite Hf. simpl.
  by apply IH.
Qed.

(** What a returned [FieldInfo] is made of. *)
Lemma get_field_info_inv model info :
  get_field_info model = inr info ->
  collect_fields model (_fields_ordered model) empty = inr (fields info)
  /\ (if is_EmbeddedDocument model then pk info = None
      else is_Some (pk info) /\ pk info = identity_field model)
  /\ fields_and_pk info =
       update (set (pk_name (pk info)) (pk info) (set "pk" (pk info) empty))
              (as_entries (fields info))
  /\ forward_relations info = []
  /\ reverse_relations info = []
  /\ relations info = [].
Proof.
  unfold get_field_info, identity_field, getitem.
  destruct (is_EmbeddedDocument model).
  - destruct (collect_fields _ _ _) as [e|fs]; [done|].
    intros [= <-]. simpl. by repeat split.
  - destruct (_meta model !! "id_field") as [[| | |id_field| |]|]; try done.
    destruct (_fields model !! id_field) as [f|] eqn:Hf; [|done].
    destruct (collect_fields _ _ _) as [e|fs]; [done|].
    intros [= <-]. simpl. by repeat split.
Qed.

Lemma get_field_info_total model :
  well_formed model -> exists info, get_field_info model = inr info.
Proof.
  intros [Hdecl Hid].
  destruct (collect_fields_total model (_fields_ordered model) empty Hdecl)
    as [fs Hfs].
  unfold get_field_info. rewrite Hfs.
  destruct (is_EmbeddedDocument model); [eauto|].
  destruct Hid as [f Hf]; [done|]. unfold identity_field, getitem in *.
  destruct (_meta model !! "id_field") as [[| | |id_field| |]|]; try done.
  rewrite Hf. eauto.
Qed.

Lemma keys_declared_items model :
  declared_fields_exist model ->
  keys (declared_items model) = _fields_ordered model.
Proof.
  unfold declared_fields_exist, declared_items.
  induction (_fields_ordered model) as [|n names IH]; [done|].
  intros [[f Hf] Hall]%Forall_cons. simpl. rewrite Hf. simpl.
  f_equal. by apply IH.
Qed.

Lemma declared_items_lookup model n f :
  (n, f) ∈ declared_items model -> _fields model !! n = Some f.
Proof.
  unfold declared_items. rewrite list_elem_of_omap.
  intros (n' & _ & Hn'). destruct (_fields model !! n') eqn:E; naive_solver.
Qed.

Lemma collect_fields_inr_all model names : forall acc fs,
  collect_fields model names acc = inr fs ->
  Forall (fun n => is_Some (_fields model !! n)) names.
Proof.
  induction names as [|n names IH]; intros acc fs Hfs; [constructor|].
  simpl in Hfs. destruct (_fields model !! n) as [f|] eqn:Hn; [|done].
  constructor; [by exists f | by eapply IH].
Qed.

(** The loop stops at the first name without definition. *)
Lemma collect_fields_first_missing model names1 n names2 : forall acc,
  Forall (fun n => is_Some (_fields model !! n)) names1 ->
  _fields model !! n = None ->
  collect_fields model (names1 ++ n :: names2) acc = inl (KeyError (PyStr n)).
Proof.
  induction names1 as [|x names1 IH]; intros acc Hall Hn; simpl.
  - by rewrite Hn.
  - apply Forall_cons in Hall as [[f Hx] Hall]. rewrite Hx. simpl.
    by apply IH.
Qed.

(** X11.  [get_field_info] returns a [FieldInfo] exactly for the models
    in which every declared name has a definition and which, unless
    embedded, name an existing identity field; on every other model it
    raises. *)
Theorem get_field_info_returns_iff model :
  (exists info, get_field_info model = inr info) <-> well_formed model.
Proof.
  split; [|apply get_field_info_total].
  intros [info Hinfo].
  destruct (get_field_info_inv model info Hinfo) as (Hfs & Hpk & _).
  split.
  - by eapply collect_fields_inr_all.
  - intros Hemb. rewrite Hemb in Hpk. destruct Hpk as [Hsome <-]. done.
Qed.

(** X12.  For a model that is not embedded the identity field is looked
    up first: without [id_field] in the metadata the call raises
    [KeyError('id_field')], and with an [id_field] that is no key of
    [_fields] it raises the [KeyError] of that name, whatever the declared
    names are. *)
Theorem get_field_info_identity_errors model :
  is_EmbeddedDocument model = false ->
  (_meta model !! "id_field" = None ->
   get_field_info model = inl (KeyError (PyStr "id_field")))
  /\ (forall id_field,
        _meta model !! "id_field" = Some (PyStr id_field) ->
        _fields model !! id_field = None ->
        get_field_info model = inl (KeyError (PyStr id_field))).
Proof.
  intros Hemb. unfold get_field_info, getitem. rewrite Hemb. split.
  - by intros ->.
  - intros id_field -> Hid. by rewrite Hid.
Qed.

(** X13.  When the primary key is settled, the call raises the
    [KeyError] of the first declared name, in declared order, that has no
    definition in [_fields]. *)
Theorem get_field_info_first_missing model names1 n names2 :
  is_EmbeddedDocument model = true \/ is_Some (identity_field model) ->
  _fields_ordered model = names1 ++ n :: names2 ->
  Forall (fun n => is_Some (_fields model !! n)) names1 ->
  _fields model !! n = None ->
  get_field_info model = inl (KeyError (PyStr n)).
Proof.
  intros Hpk Hnames Hall Hn. unfold get_field_info.
  rewrite Hnames, (collect_fields_first_missing model names1 n names2) by done.
  destruct (is_EmbeddedDocument model); [done|].
  destruct Hpk as [|[f Hf]]; [done|].
  unfold identity_field, getitem in *.
  destruct (_meta model !! "id_field") as [[| | |id_field| |]|]; try done.
  by rewrite Hf.
Qed.

(** X14.  [fields] is the restriction of [_fields] to the declared names:
    it has no key twice, even when a name is declared twice, a declared
    name leads to its definition and any other name to nothing. *)
Theorem fields_lookup model :
  well_formed model ->
  exists info,
    get_field_info model = inr info
    /\ NoDup (keys (fields info))
    /\ forall k,
         get k (fields info)
           = if decide (k ∈ _fields_ordered model) then _fields model !! k
             else None.
Proof.
  intros Hwf.
  destruct (get_field_info_total model Hwf) as [info Hinfo].
  destruct (get_field_info_inv model info Hinfo) as (Hfs & _).
  destruct (collect_fields_get _ _ _ _ Hfs) as [Hnd Hget];
    [apply NoDup_nil_2|].
  exists info. split_and!; try done.
Qed.

Lemma get_base (pk : option field) k :
  get k (set (pk_name pk) pk (set "pk" pk empty))
    = if decide (k = "pk" \/ k = pk_name pk) then Some pk else None.
Proof.
  change (set "pk" pk empty) with [("pk", pk)].
  rewrite get_set.
  change [("pk", pk)] with (set "pk" pk empty). rewrite get_set.
  repeat case_decide; naive_solver.
Qed.

Lemma fields_and_pk_get model info :
  get_field_info model = inr info ->
  forall k,
    get k (fields_and_pk info)
      = if decide (k ∈ _fields_ordered model)
        then Some (_fields model !! k)
        else if decide (k = "pk" \/ k = pk_name (pk info))
             then Some (pk info) else None.
Proof.
  intros Hinfo k.
  destruct (get_field_info_inv model info Hinfo) as (Hfs & _ & Hfap & _).
  destruct (collect_fields_get _ _ _ _ Hfs) as [Hnd Hget];
    [apply NoDup_nil_2|].
  rewrite Hfap, get_update by by rewrite keys_as_entries.
  rewrite get_as_entries, Hget.
  destruct (decide (k ∈ _fields_ordered model)) as [Hk|Hk].
  - pose proof (collect_fields_inr_all _ _ _ _ Hfs) as Hdecl.
    destruct (proj1 (Forall_forall _ _) Hdecl k Hk) as [f ->]. done.
  - simpl. apply get_base.
Qed.

(** X15.  Lookup in [fields_and_pk]: a declared name leads to its own
    definition; a name that is not declared leads to the primary key when
    it is [pk] or the primary key's own name, and to nothing otherwise. *)
Theorem fields_and_pk_lookup model :
  well_formed model ->
  exists info,
    get_field_info model = inr info
    /\ forall k,
         get k (fields_and_pk info)
           = if decide (k ∈ _fields_ordered model)
             then Some (_fields model !! k)
             else if decide (k = "pk" \/ k = pk_name (pk info))
                  then Some (pk info) else None.
Proof.
  intros Hwf.
  destruct (get_field_info_total model Hwf) as [info Hinfo].
  exists info. split; [done|]. by apply fields_and_pk_get.
Qed.

Lemma keys_base (pk : option field) :
  keys (set (pk_name pk) pk (set "pk" pk empty)) = pk_keys pk.
Proof.
  change (set "pk" pk empty) with [("pk", pk)].
  rewrite keys_set. unfold pk_keys.
  change (keys [("pk", pk)]) with ["pk"].
  destruct (decide (pk_name pk = "pk")) as [->|Hne].
  - rewrite decide_True; [done | by left].
  - rewrite decide_False; [done|].
    by rewrite list_elem_of_singleton.
Qed.

Lemma field_info_keys model :
  well_formed model ->
  NoDup (_fields_ordered model) ->
  exists info,
    get_field_info model = inr info
    /\ fields info = declared_items model
    /\ keys (fields info) = _fields_ordered model.
Proof.
  intros Hwf Hnd.
  destruct (get_field_info_total model Hwf) as [info Hinfo].
  destruct (get_field_info_inv model info Hinfo) as (Hfs & _).
  destruct Hwf as [Hdecl _].
  rewrite collect_fields_items in Hfs; [|done|set_solver|done].
  simpl in Hfs. injection Hfs as Hfs. fold (declared_items model) in Hfs.
  exists info. split_and!; [done | done |].
  by rewrite <- Hfs, keys_declared_items.
Qed.

Lemma keys_fields_and_pk model info :
  get_field_info model = inr info ->
  keys (fields info) = _fields_ordered model ->
  NoDup (_fields_ordered model) ->
  keys (fields_and_pk info)
    = pk_keys (pk info)
      ++ filter (fun k => k ∉ pk_keys (pk info)) (_fields_ordered model).
Proof.
  intros Hinfo Hkeys Hnd.
  destruct (get_field_info_inv model info Hinfo) as (_ & _ & Hfap & _).
  rewrite Hfap, keys_update by by rewrite keys_as_entries, Hkeys.
  by rewrite keys_base, keys_as_entries, Hkeys.
Qed.

(** X16.  Order of [fields_and_pk] when the declared names are distinct:
    first [pk], then the primary key's own name (if it is not [pk]
    itself), then the declared names, in declared order, that are neither
    of the two. *)
Theorem fields_and_pk_order model :
  well_formed model ->
  NoDup (_fields_ordered model) ->
  exists info,
    get_field_info model = inr info
    /\ keys (fields_and_pk info)
       = pk_keys (pk info)
         ++ filter (fun k => k ∉ pk_keys (pk info)) (_fields_ordered model).
Proof.
  intros Hwf Hnd.
  destruct (field_info_keys model Hwf Hnd) as (info & Hinfo & _ & Hkeys).
  exists info. split; [done|]. by apply keys_fields_and_pk.
Qed.

Lemma filter_ne_absent (x : string) (l : list string) :
  x ∉ l -> filter (fun k => k <> x) l = l.
Proof.
  induction l as [|y l IH]; [done|].
  rewrite not_elem_of_cons. intros [Hne Hx].
  rewrite filter_cons_True by done. by rewrite IH.
Qed.

Lemma length_filter_ne (x : string) (l : list string) :
  NoDup l -> x ∈ l -> S (length (filter (fun k => k <> x) l)) = length l.
Proof.
  induction l as [|y l IH]; intros Hnd Hx; [by apply elem_of_nil in Hx|].
  apply NoDup_cons in Hnd as [Hy Hnd].
  destruct (decide (y = x)) as [->|Hne].
  - rewrite filter_cons_False by (intros Hn; by apply Hn).
    by rewrite filter_ne_absent.
  - rewrite filter_cons_True by done. simpl. f_equal. apply IH; [done|].
    apply elem_of_cons in Hx as [->|Hx]; done.
Qed.

Lemma fields_and_pk_declared_pk model info p :
  get_field_info model = inr info ->
  keys (fields info) = _fields_ordered model ->
  NoDup (_fields_ordered model) ->
  "pk" ∉ _fields_ordered model ->
  pk info = Some p ->
  name p ∈ _fields_ordered model ->
  keys (fields_and_pk info)
    = "pk" :: name p :: filter (fun k => k <> name p) (_fields_ordered model)
  /\ length (fields_and_pk info) = S (length (_fields_ordered model)).
Proof.
  intros Hinfo Hkeys Hnd Hpk Hp Hname.
  assert (name p <> "pk") as Hne by (intros E; by rewrite E in Hname).
  assert (keys (fields_and_pk info)
          = "pk" :: name p
              :: filter (fun k => k <> name p) (_fields_ordered model)) as Hk.
  { rewrite (keys_fields_and_pk model info) by done. rewrite Hp.
    unfold pk_keys. change (pk_name (Some p)) with (name p).
    rewrite decide_False by done. simpl. do 2 f_equal.
    apply filter_agree. intros x Hx.
    rewrite !not_elem_of_cons. split; [naive_solver|].
    intros Hxp. split_and!; [|done|apply not_elem_of_nil].
    intros ->. done. }
  split; [done|].
  rewrite <- (length_map fst (fields_and_pk info)).
  change (map fst (fields_and_pk info)) with (keys (fields_and_pk info)).
  rewrite Hk. simpl. f_equal. by apply length_filter_ne.
Qed.

(** X17.  When the primary key's own name is one of the [N] distinct
    declared names and no declared name is [pk], [fields_and_pk] has
    [N + 1] entries: [pk], the primary key's name, and the other declared
    names in declared order. *)
Theorem fields_and_pk_identity_declared model :
  well_formed model ->
  NoDup (_fields_ordered model) ->
  "pk" ∉ _fields_ordered model ->
  exists info,
    get_field_info model = inr info
    /\ forall p,
         pk info = Some p ->
         name p ∈ _fields_ordered model ->
         keys (fields_and_pk info)
           = "pk" :: name p
               :: filter (fun k => k <> name p) (_fields_ordered model)
         /\ length (fields_and_pk info) = S (length (_fields_ordered model)).
Proof.
  intros Hwf Hnd Hpk.
  destruct (field_info_keys model Hwf Hnd) as (info & Hinfo & _ & Hkeys).
  exists info. split; [done|]. intros p Hp Hname.
  by apply (fields_and_pk_declared_pk model info p).
Qed.

(** X18.  For an embedded document with [N] distinct declared names, none
    of them [pk], [fields_and_pk] is the entry [pk] with [None] followed
    by the [N] declared fields: both primary-key assignments hit the key
    [pk]. *)
Theorem fields_and_pk_embedded model :
  well_formed model ->
  is_EmbeddedDocument model = true ->
  NoDup (_fields_ordered model) ->
  "pk" ∉ _fields_ordered model ->
  exists info,
    get_field_info model = inr info
    /\ pk info = None
    /\ fields_and_pk info = ("pk", None) :: as_entries (declared_items model)
    /\ length (fields_and_pk info) = S (length (_fields_ordered model)).
Proof.
  intros Hwf Hemb Hnd Hpk.
  destruct (field_info_keys model Hwf Hnd) as (info & Hinfo & Hfs & Hkeys).
  destruct (get_field_info_inv model info Hinfo) as (_ & Hnone & Hfap & _).
  rewrite Hemb in Hnone.
  assert (fields_and_pk info
          = ("pk", None) :: as_entries (declared_items model)) as Hshape.
  { rewrite Hfap, Hnone, Hfs.
    change (set (pk_name None) None (set "pk" None empty))
      with [("pk", @None field)].
    rewrite update_fresh; [done| |].
    - by rewrite keys_as_entries, <- Hfs, Hkeys.
    - intros k. rewrite keys_as_entries, <- Hfs, Hkeys. simpl.
      rewrite list_elem_of_singleton. intros Hk ->. done. }
  exists info. split_and!; try done.
  rewrite Hshape. simpl. f_equal. unfold as_entries.
  by rewrite length_map, <- Hfs, <- Hkeys, <- (length_map fst).
Qed.

(** C4.  With [N] distinct declared names, [fields] has exactly the [N]
    entries of the declared fields, in declared order, each name with its
    definition.  When a primary key is present, on a class where [pk] is
    neither a declared name nor the primary key's own name (mongoengine
    builds no other top-level class), the key [pk] leads to the primary
    key's definition and [fields_and_pk] has [N + 2] entries unless the
    primary key's own name is a declared name: [pk] and the primary
    key's name, both with the primary key's definition, then the [N]
    fields.  When the primary key's own name is a declared name, as on
    every class mongoengine builds, there are [N + 1] entries. *)
Theorem field_info_entries model :
  well_formed model ->
  NoDup (_fields_ordered model) ->
  exists info,
    get_field_info model = inr info
    /\ fields info = declared_items model
    /\ keys (fields info) = _fields_ordered model
    /\ length (fields info) = length (_fields_ordered model)
    /\ (forall n f, (n, f) ∈ fields info -> _fields model !! n = Some f)
    /\ (forall p,
          pk info = Some p ->
          "pk" ∉ _fields_ordered model ->
          name p <> "pk" ->
          get "pk" (fields_and_pk info) = Some (Some p)
          /\ (name p ∉ _fields_ordered model ->
              fields_and_pk info =
                ("pk", Some p) :: (name p, Some p) :: as_entries (fields info)
              /\ length (fields_and_pk info)
                 = (length (_fields_ordered model) + 2)%nat)
          /\ (name p ∈ _fields_ordered model ->
              length (fields_and_pk info)
              = (length (_fields_ordered model) + 1)%nat)).
Proof.
  intros Hwf Hnd.
  destruct (field_info_keys model Hwf Hnd) as (info & Hinfo & Hfs & Hkeys).
  exists info. split; [done|].
  destruct (get_field_info_inv model info Hinfo) as (_ & _ & Hfap & _).
  assert (length (fields info) = length (_fields_ordered model)) as Hlen
    by by rewrite <- Hkeys; unfold keys; rewrite length_map.
  split_and!; try done.
  - intros n f. rewrite Hfs. apply declared_items_lookup.
  - intros p Hp Hpk Hne. split_and!.
    + rewrite (fields_and_pk_get model info Hinfo).
      rewrite decide_False by done. rewrite decide_True by by left.
      by rewrite Hp.
    + intros Hname. rewrite Hfap, Hp.
      change (pk_name (Some p)) with (name p).
      change (set "pk" (Some p) empty) with [("pk", Some p)].
      rewrite set_fresh
        by (simpl; rewrite list_elem_of_singleton; congruence).
      rewrite update_fresh.
      * split; [done|]. simpl. unfold as_entries. rewrite length_map. lia.
      * by rewrite keys_as_entries, Hkeys.
      * intros k. rewrite keys_as_entries, Hkeys. simpl.
        rewrite !not_elem_of_cons. intros Hk.
        split_and!; [congruence | congruence | apply not_elem_of_nil].
    + intros Hname.
      destruct (fields_and_pk_declared_pk model info p) as [_ ->]; try done.
      lia.
Qed.

(** C8.  The forward, reverse and merged relation mappings of every
    returned [FieldInfo] are empty, and a [FieldInfo] is returned for
    every model whose metadata and field table are coherent. *)
Theorem relations_empty model :
  (forall info,
      get_field_info model = inr info ->
      forward_relations info = []
      /\ reverse_relations info = []
      /\ relations info = [])
  /\ (well_formed model -> exists info, get_field_info model = inr info).
Proof.
  split; [|apply get_field_info_total].
  intros info Hinfo.
  by destruct (get_field_info_inv model info Hinfo) as (_ & _ & _ & ?).
Qed.

(** C9.  For an embedded document [pk] is [None]; for any other document
    it is the definition stored in [_fields] under the name that the
    metadata gives as [id_field]. *)
Theorem primary_key_of_model model :
  well_formed model ->
  exists info,
    get_field_info model = inr info
    /\ (is_EmbeddedDocument model = true -> pk info = None)
    /\ (is_EmbeddedDocument model = false ->
        exists id_field f,
          _meta model !! "id_field" = Some (PyStr id_field)
          /\ _fields model !! id_field = Some f
          /\ pk info = Some f).
Proof.
  intros Hwf.
  destruct (get_field_info_total model Hwf) as [info Hinfo].
  exists info. split; [done|].
  destruct (get_field_info_inv model info Hinfo) as (_ & Hpk & _).
  split; intros Hemb; rewrite Hemb in Hpk; [done|].
  destruct Hpk as [[f Hf] Hid]. rewrite Hf in Hid.
  unfold identity_field in Hid.
  destruct (_meta model !! "id_field") as [[| | |id_field| |]|]; try done.
  by exists id_field, f.
Qed.

(** C10.  When a field named [pk] is declared, the entry of
    [fields_and_pk] under the key [pk] (the first entry) holds that
    field's definition: merging the declared fields last overwrites the
    primary-key entry. *)
Theorem declared_pk_wins model :
  well_formed model ->
  "pk" ∈ _fields_ordered model ->
  exists info f rest,
    get_field_info model = inr info
    /\ _fields model !! "pk" = Some f
    /\ get "pk" (fields_and_pk info) = Some (Some f)
    /\ fields_and_pk info = ("pk", Some f) :: rest.
Proof.
  intros Hwf Hpk.
  destruct (get_field_info_total model Hwf) as [info Hinfo].
  destruct (get_field_info_inv model info Hinfo) as (Hfs & _ & Hfap & _).
  destruct Hwf as [Hdecl _].
  destruct (proj1 (Forall_forall _ _) Hdecl "pk" Hpk) as [f Hf].
  destruct (collect_fields_get _ _ _ _ Hfs) as [Hnd Hget];
    [apply NoDup_nil_2|].
  assert (get "pk" (fields_and_pk info) = Some (Some f)) as Hlook.
  { rewrite Hfap, get_update by by rewrite keys_as_entries.
    by rewrite get_as_entries, Hget, decide_True, Hf by done. }
  destruct (set_head [] "pk" (pk info) (pk_name (pk info)) (pk info))
    as (v1 & d1 & Hset).
  destruct (update_head (as_entries (fields info)) d1 "pk" v1)
    as (v2 & d2 & Hupd).
  assert (fields_and_pk info = ("pk", v2) :: d2) as Hshape
    by (rewrite Hfap; simpl set at 2; by rewrite Hset, Hupd).
  exists info, f, d2. repeat split; try done.
  rewrite Hshape in Hlook |- *. simpl in Hlook. congruence.
Qed.

End FieldInfoFacts.

(** ** [is_abstract_model] *)

(** X22.  [is_abstract_model] is a true value exactly when the class has
    a [meta] attribute whose entry [abstract] is a true value; what
    [_meta] holds plays no part. *)
Theorem is_abstract_model_truthy model :
  truthy (is_abstract_model model) = true
  <-> exists m v,
        meta model = Some m /\ m !! "abstract" = Some v /\ truthy v = true.
Proof.
  unfold is_abstract_model. destruct (meta model) as [m|]; simpl.
  - destruct (m !! "abstract") as [v|] eqn:Hv; simpl.
    + split; [by exists m, v|]. intros (m' & v' & [= <-] & Hv' & Ht).
      rewrite Hv in Hv'. by injection Hv' as <-.
    + split; [done|]. intros (m' & v' & [= <-] & Hv' & _).
      by rewrite Hv in Hv'.
  - split; [done|]. by intros (m' & v' & [=] & _).
Qed.

(** * Instances *)

Section Instances.

Import Samples OrderedDict.

Local Abbreviation kwargs_of := (get_field_kwargs always_label same_text).
Local Abbreviation resolve_with := (_resolve_model registry).

Lemma customer_well_formed : well_formed customer.
Proof.
  split.
  - repeat constructor; eexists; vm_compute; reflexivity.
  - intros _. eexists. vm_compute. reflexivity.
Qed.

Lemma member_well_formed : well_formed member.
Proof.
  split.
  - repeat constructor; eexists; vm_compute; reflexivity.
  - intros _. eexists. vm_compute. reflexivity.
Qed.

Lemma address_well_formed : well_formed address.
Proof.
  split.
  - repeat constructor; eexists; vm_compute; reflexivity.
  - intros [=].
Qed.

Lemma coupon_well_formed : well_formed coupon.
Proof.
  split.
  - repeat constructor; eexists; vm_compute; reflexivity.
  - intros [=].
Qed.

Lemma NoDup_two (a b : string) : a <> b -> NoDup [a; b].
Proof.
  intros Hne. repeat constructor.
  - by rewrite list_elem_of_singleton.
  - apply not_elem_of_nil.
Qed.

Lemma NoDup_three (a b c : string) :
  a <> b -> a <> c -> b <> c -> NoDup [a; b; c].
Proof.
  intros Hab Hac Hbc. constructor; [|by apply NoDup_two].
  rewrite !not_elem_of_cons. split_and!; [done | done | apply not_elem_of_nil].
Qed.

Lemma no_two_parts s :
  length (split "." s) <> 2%nat ->
  forall app_name model_name, ~ two_part_dotted s app_name model_name.
Proof.
  intros Hlen a m Hs%split_two_iff. by rewrite Hs in Hlen.
Qed.

(** ** The statements C1 to C10 *)

(** The automatic [id] field, stored as [_id], is read-only. *)
Lemma read_only_kwargs_auto_id :
  exists kwargs,
    kwargs_of "id" auto_id = inr kwargs
    /\ dom kwargs = read_only_key_set always_label "id" auto_id
    /\ kwargs !! "model_field" = Some (KField auto_id)
    /\ kwargs !! "read_only" = Some (KVal (PyBool true))
    /\ Forall (fun k => kwargs !! k = None)
         ["required"; "default"; "max_length"; "min_length";
          "max_value"; "min_value"].
Proof.
  exact (read_only_kwargs always_label same_text "id" auto_id
           (or_intror (or_intror eq_refl))).
Defined.

Lemma decimal_sample field_name f :
  isinstance f DecimalField = true ->
  unique_without_model f = false ->
  exists kwargs,
    kwargs_of field_name f = inr kwargs
    /\ kwargs !! "decimal_places" = Some (KVal (PyInt (precision f)))
    /\ kwargs !! "max_digits"
       = Some (KVal (PyInt (match max_value f with
                            | Some v => len_str_number v + precision f
                            | None => 65536
                            end))).
Proof.
  intros Hdec Hok.
  destruct (get_field_kwargs_returns always_label same_text field_name f Hok)
    as [kwargs Hkw].
  exists kwargs. split; [done|].
  rewrite !(get_field_kwargs_early _ _ field_name f _ kwargs Hkw)
    by (unfold writable_keys, constraint_keys; set_solver).
  by apply common_kwargs_decimal.
Qed.

Lemma decimal_places_not_expected :
  "decimal_places"
  ∉ ({["model_field"; "read_only"; "label"; "help_text"]} : gset string).
Proof. set_solver. Qed.

(** C1 as first stated fails on a decimal primary key: its keyword
    arguments also hold [decimal_places] and [max_digits]. *)
Lemma read_only_kwargs_decimal_pk :
  truthy (primary_key amount_pk) = true
  /\ exists kwargs,
       kwargs_of "amount" amount_pk = inr kwargs
       /\ kwargs !! "decimal_places" = Some (KVal (PyInt 2))
       /\ kwargs !! "max_digits" = Some (KVal (PyInt 65536))
       /\ ~ dom kwargs
            ⊆ {["model_field"; "read_only"; "label"; "help_text"]}.
Proof.
  split; [reflexivity|].
  destruct (decimal_sample "amount" amount_pk eq_refl eq_refl)
    as (kwargs & Hkw & Hplaces & Hdigits).
  exists kwargs. split_and!; [exact Hkw | exact Hplaces | exact Hdigits |].
  intros Hsub. apply decimal_places_not_expected, Hsub, elem_of_dom.
  by eexists.
Qed.

(** [IntField(required=True, default=0)]: [required] stays [True] and
    there is no [default]. *)
Lemma falsy_default_dropped_age_0 :
  exists kwargs,
    kwargs_of "age" age_default_0 = inr kwargs
    /\ kwargs !! "required" = Some (KVal (PyBool true))
    /\ kwargs !! "default" = None.
Proof.
  exact (falsy_default_dropped always_label same_text "age" age_default_0
           eq_refl eq_refl ltac:(discriminate) eq_refl).
Defined.

(** With a registry that raises for an unknown name and a [mongoengine]
    module without [BaseDocument], an unregistered dotted name leaves
    with [NotRegistered], and a class, document or not, with
    [AttributeError]. *)
Lemma resolve_model_propagates_samples :
  resolve_with no_BaseDocument (ObjStr "shop.Order")
    = inl (NotRegistered "Order")
  /\ resolve_with no_BaseDocument (ObjClass plain_class)
     = inl (AttributeError "BaseDocument")
  /\ resolve_with no_BaseDocument (ObjClass customer)
     = inl (AttributeError "BaseDocument").
Proof.
  destruct (resolve_model_propagates registry no_BaseDocument)
    as [Hregistry Hclass].
  split_and!.
  - apply (Hregistry _ "shop" "Order"); [|reflexivity]. by split_and!.
  - exact (Hclass plain_class _ eq_refl).
  - exact (Hclass customer _ eq_refl).
Defined.

(** [customer] has three declared names, [id] among them: three fields
    and four entries in [fields_and_pk]. *)
Lemma field_info_entries_customer :
  exists info,
    get_field_info customer = inr info
    /\ keys (fields info) = ["id"; "email"; "colour"]
    /\ get "pk" (fields_and_pk info) = Some (Some auto_id)
    /\ length (fields_and_pk info) = 4%nat.
Proof.
  destruct (field_info_entries customer customer_well_formed)
    as (info & Hinfo & _ & Hkeys & _ & _ & Hfap).
  { by apply NoDup_three. }
  exists info. split_and!; [exact Hinfo | exact Hkeys | |].
  all: assert (pk info = Some auto_id) as Hpk
    by (vm_compute in Hinfo; injection Hinfo as <-; reflexivity).
  all: destruct (Hfap auto_id Hpk) as (Hget & _ & Hlen);
    [simpl; rewrite !not_elem_of_cons;
     split_and!; [done | done | done | apply not_elem_of_nil]
    | done |].
  - exact Hget.
  - apply Hlen. simpl. by left.
Defined.

(** A unique text field with choices. *)
Lemma choices_kwargs_colour :
  exists kwargs,
    kwargs_of "colour" colour = inr kwargs
    /\ kwargs !! "choices"
       = Some (KVal (PyList [PyStr "red"; PyStr "green"]))
    /\ Forall (fun k => kwargs !! k = None)
         ["max_length"; "min_length"; "max_value"; "min_value"; "validators"].
Proof.
  exact (choices_kwargs always_label same_text "colour" colour
           eq_refl eq_refl).
Defined.



(** [StringField(unique=True)], as mongoengine builds it. *)
Lemma unique_field_raises_email :
  kwargs_of "email" email = inl (AttributeError "model").
Proof.
  exact (unique_field_raises always_label same_text "email" email
           eq_refl eq_refl eq_refl eq_refl).
Defined.

Lemma relations_empty_customer :
  exists info,
    get_field_info customer = inr info
    /\ forward_relations info = []
    /\ reverse_relations info = []
    /\ relations info = [].
Proof.
  destruct (relations_empty customer) as [Hempty Hreturns].
  destruct (Hreturns customer_well_formed) as [info Hinfo].
  exists info. split; [exact Hinfo | exact (Hempty info Hinfo)].
Defined.

(** The embedded [address] has no primary key; the primary key of
    [customer] is its [id] field. *)
Lemma primary_key_samples :
  (exists info, get_field_info address = inr info /\ pk info = None)
  /\ (exists info, get_field_info customer = inr info
                   /\ pk info = Some auto_id).
Proof.
  split.
  - destruct (primary_key_of_model address address_well_formed)
      as (info & Hinfo & Hemb & _).
    exists info. split; [exact Hinfo | exact (Hemb eq_refl)].
  - destruct (primary_key_of_model customer customer_well_formed)
      as (info & Hinfo & _ & Hdoc).
    exists info. split; [exact Hinfo|].
    destruct (Hdoc eq_refl) as (id_field & f & Hid & Hf & ->).
    vm_compute in Hid. injection Hid as <-.
    vm_compute in Hf. injection Hf as <-. reflexivity.
Defined.

(** In the embedded [coupon] the key [pk] leads to the declared text
    field. *)
Lemma declared_pk_wins_coupon :
  exists info rest,
    get_field_info coupon = inr info
    /\ get "pk" (fields_and_pk info) = Some (Some pk_text)
    /\ fields_and_pk info = ("pk", Some pk_text) :: rest.
Proof.
  destruct (declared_pk_wins coupon coupon_well_formed)
    as (info & f & rest & Hinfo & Hf & Hget & Hshape).
  { constructor. }
  vm_compute in Hf. injection Hf as <-.
  exists info, rest. split_and!; [exact Hinfo | exact Hget | exact Hshape].
Defined.

(** ** The statements X1 to X22 *)

Lemma kwargs_model_field_age :
  exists kwargs,
    kwargs_of "age" age_default_18 = inr kwargs
    /\ kwargs !! "model_field" = Some (KField age_default_18).
Proof.
  exact (kwargs_model_field_always always_label same_text "age"
           age_default_18 eq_refl).
Defined.

Lemma kwargs_keys_known_price :
  exists kwargs,
    kwargs_of "price" price = inr kwargs
    /\ dom kwargs ⊆ list_to_set known_keys.
Proof.
  exact (kwargs_keys_known always_label same_text "price" price eq_refl).
Defined.

(** A field with the default 18 is not required. *)
Lemma read_only_or_required_age :
  exists kwargs,
    kwargs_of "age" age_default_18 = inr kwargs
    /\ kwargs !! "read_only" = None
    /\ kwargs !! "required" = Some (KVal (PyBool false)).
Proof.
  exact (read_only_or_required always_label same_text "age"
           age_default_18 eq_refl).
Defined.

Lemma default_key_age :
  exists kwargs,
    kwargs_of "age" age_default_18 = inr kwargs
    /\ kwargs !! "default" = Some (KVal (PyInt 18)).
Proof.
  exact (default_key always_label same_text "age" age_default_18 eq_refl).
Defined.

Lemma allow_null_and_choices_colour :
  exists kwargs,
    kwargs_of "colour" colour = inr kwargs
    /\ kwargs !! "allow_null" = None
    /\ kwargs !! "choices"
       = Some (KVal (PyList [PyStr "red"; PyStr "green"])).
Proof.
  exact (allow_null_and_choices_keys always_label same_text "colour"
           colour eq_refl).
Defined.

Lemma length_keys_street :
  exists kwargs,
    kwargs_of "street" street = inr kwargs
    /\ kwargs !! "max_length" = None
    /\ kwargs !! "min_length" = None.
Proof.
  exact (length_keys always_label same_text "street" street eq_refl).
Defined.

(** A float bound is passed on as it is. *)
Lemma value_keys_weight :
  exists kwargs,
    kwargs_of "weight" weight = inr kwargs
    /\ kwargs !! "max_value" = Some (KNumber (NFloat "999.0"))
    /\ kwargs !! "min_value" = None.
Proof.
  exact (value_keys always_label same_text "weight" weight eq_refl).
Defined.

(** [email] as mongoengine builds it makes the call raise; with a
    [model] set by hand the uniqueness validator is returned. *)
Lemma validators_key_email :
  kwargs_of "email" email = inl (AttributeError "model")
  /\ exists kwargs,
       kwargs_of "email" email_with_model = inr kwargs
       /\ kwargs !! "validators"
          = Some (KValidators [UniqueValidator "person" PyNone]).
Proof.
  split.
  - exact (proj1 (validators_key always_label same_text "email" email)
             eq_refl).
  - exact (proj2 (validators_key always_label same_text "email"
                    email_with_model) eq_refl).
Defined.

Lemma decimal_keys_age :
  exists kwargs,
    kwargs_of "age" age_default_18 = inr kwargs
    /\ kwargs !! "decimal_places" = None
    /\ kwargs !! "max_digits" = None.
Proof.
  exact (decimal_keys always_label same_text "age" age_default_18 eq_refl).
Defined.

Lemma label_and_help_text_age :
  exists kwargs,
    kwargs_of "age" age_default_18 = inr kwargs
    /\ kwargs !! "label" = None
    /\ kwargs !! "help_text" = None.
Proof.
  exact (label_and_help_text_keys always_label same_text "age"
           age_default_18 eq_refl).
Defined.

(** [orphan] has no [id_field]; [dangling] names an [id] that is not in
    [_fields]. *)
Lemma get_field_info_no_identity :
  get_field_info orphan = inl (KeyError (PyStr "id_field"))
  /\ get_field_info dangling = inl (KeyError (PyStr "id")).
Proof.
  split.
  - apply (proj1 (get_field_info_identity_errors orphan eq_refl)).
    vm_compute. reflexivity.
  - apply (proj2 (get_field_info_identity_errors dangling eq_refl) "id");
      vm_compute; reflexivity.
Defined.

(** [broken] declares [city] and [zip] without definition: the error
    names [city]. *)
Lemma get_field_info_broken :
  get_field_info broken = inl (KeyError (PyStr "city")).
Proof.
  apply (get_field_info_first_missing broken ["street"] "city" ["zip"]).
  - left. reflexivity.
  - reflexivity.
  - repeat constructor. eexists. vm_compute. reflexivity.
  - vm_compute. reflexivity.
Defined.

(** In [customer] the declared [email] is found in [fields]; [pk], which
    is not declared, is not. *)
Lemma fields_lookup_customer :
  exists info,
    get_field_info customer = inr info
    /\ get "email" (fields info) = Some email
    /\ get "pk" (fields info) = None.
Proof.
  destruct (fields_lookup customer customer_well_formed)
    as (info & Hinfo & _ & Hget).
  exists info. split_and!; [exact Hinfo | |];
    rewrite Hget; vm_compute; reflexivity.
Defined.

(** In [customer], [pk] and [id] lead to the identity field, [email] to
    its own definition, and an unknown name to nothing. *)
Lemma fields_and_pk_lookup_customer :
  exists info,
    get_field_info customer = inr info
    /\ get "pk" (fields_and_pk info) = Some (Some auto_id)
    /\ get "id" (fields_and_pk info) = Some (Some auto_id)
    /\ get "email" (fields_and_pk info) = Some (Some email)
    /\ get "zip" (fields_and_pk info) = None.
Proof.
  destruct (fields_and_pk_lookup customer customer_well_formed)
    as (info & Hinfo & Hget).
  exists info. split; [exact Hinfo|].
  assert (pk info = Some auto_id) as Hpk.
  { vm_compute in Hinfo. injection Hinfo as <-. reflexivity. }
  split_and!; rewrite Hget, ?Hpk; vm_compute; reflexivity.
Defined.

(** [member] declares [id] and [email]: three entries, [pk] first. *)
Lemma fields_and_pk_order_member :
  exists info,
    get_field_info member = inr info
    /\ keys (fields_and_pk info) = ["pk"; "id"; "email"].
Proof.
  destruct (fields_and_pk_order member member_well_formed)
    as (info & Hinfo & Hkeys).
  { by apply NoDup_two. }
  exists info. split; [exact Hinfo|].
  assert (pk info = Some auto_id) as Hpk.
  { vm_compute in Hinfo. injection Hinfo as <-. reflexivity. }
  rewrite Hkeys, Hpk. vm_compute. reflexivity.
Defined.

Lemma fields_and_pk_identity_declared_member :
  exists info,
    get_field_info member = inr info
    /\ length (fields_and_pk info) = 3%nat.
Proof.
  destruct (fields_and_pk_identity_declared member member_well_formed)
    as (info & Hinfo & Hshape).
  { by apply NoDup_two. }
  { simpl. rewrite !not_elem_of_cons.
    split_and!; [done | done | apply not_elem_of_nil]. }
  exists info. split; [exact Hinfo|].
  assert (pk info = Some auto_id) as Hpk.
  { vm_compute in Hinfo. injection Hinfo as <-. reflexivity. }
  destruct (Hshape auto_id Hpk) as [_ Hlen]; [by left | exact Hlen].
Defined.

(** The embedded [address]: [pk] with no definition, then [street]. *)
Lemma fields_and_pk_embedded_address :
  exists info,
    get_field_info address = inr info
    /\ pk info = None
    /\ fields_and_pk info = [("pk", None); ("street", Some street)].
Proof.
  destruct (fields_and_pk_embedded address address_well_formed eq_refl)
    as (info & Hinfo & Hpk & Hshape & _).
  { repeat constructor. apply not_elem_of_nil. }
  { simpl. by rewrite list_elem_of_singleton. }
  exists info. split_and!; [exact Hinfo | exact Hpk |].
  rewrite Hshape. vm_compute. reflexivity.
Defined.

(** [crm.Customer] resolves to what [shop.Customer] resolves to. *)
Lemma resolve_ignores_app_label_customer :
  resolve_with no_BaseDocument (ObjStr "crm.Customer") = inr customer.
Proof.
  apply (resolve_ignores_app_label registry no_BaseDocument
           "shop.Customer" "crm.Customer" "shop" "crm" "Customer").
  - by split_and!.
  - by split_and!.
  - reflexivity.
Defined.

(** Text with two dots and a number are refused even without
    [BaseDocument]; with it, a class that is no document is refused and
    a document class is returned. *)
Lemma resolve_value_error_samples :
  resolve_with no_BaseDocument (ObjStr "shop.models.Customer")
    = inl (ValueError "shop.models.Customer is not a MongoDB Document")
  /\ resolve_with no_BaseDocument (ObjOther "42")
     = inl (ValueError "42 is not a MongoDB Document")
  /\ resolve_with with_BaseDocument (ObjClass plain_class)
     = inl (ValueError "<class 'Plain'> is not a MongoDB Document")
  /\ resolve_with with_BaseDocument (ObjClass address) = inr address.
Proof.
  destruct (resolve_value_error registry no_BaseDocument) as [Hbad _].
  destruct (resolve_value_error registry with_BaseDocument) as [_ Hclass].
  split_and!.
  - apply (Hbad (ObjStr "shop.models.Customer")).
    unfold not_a_reference. apply no_two_parts. vm_compute. discriminate.
  - exact (Hbad (ObjOther "42") I).
  - exact (Hclass plain_class _ eq_refl).
  - exact (Hclass address _ eq_refl).
Defined.

(** The bare name of a registered document is refused; a dotted name
    gets the registry's answer: the class, the registry's exception, or
    the configuration error from a registry that answers [None]. *)
Lemma resolve_one_dot_samples :
  resolve_with no_BaseDocument (ObjStr "Customer")
    = inl (ValueError "Customer is not a MongoDB Document")
  /\ (exists app_name model_name,
        "shop.Order" = app_name ++ "." ++ model_name
        /\ _resolve_model quiet_registry no_BaseDocument (ObjStr "shop.Order")
           = match quiet_registry model_name with
             | inl e => inl e
             | inr None =>
                 inl (ImproperlyConfigured
                        ("Mongoengine did not return a model for "
                         ++ app_name ++ "." ++ model_name))
             | inr (Some c) => inr c
             end).
Proof.
  destruct (resolve_one_dot registry no_BaseDocument "Customer")
    as [Hnone _].
  destruct (resolve_one_dot quiet_registry no_BaseDocument "shop.Order")
    as [_ Hone].
  split.
  - apply Hnone. vm_compute. discriminate.
  - apply Hone. vm_compute. reflexivity.
Defined.

End Instances.
